(** * buildBundle: the bundle build orchestrator of cli-plugin-metro

    A shallow embedding of
    [packages/cli-plugin-metro/src/commands/bundle/buildBundle.ts].

    [buildBundleWithConfig] is an async function that talks to several
    collaborators (the logger, [process.env], Metro's [Server], the output
    writer, [fs], [saveAssets]).  It is embedded as a computation in a small
    state-and-exception monad: the state holds the process environment and
    the chronological trace of the calls made to the collaborators; every
    [await] is a sequencing point, so the async function is read as its
    sequential unfolding, a rejected promise being a [throw].

    The collaborators are not defined in this file of the repository.  They
    are taken as parameters (records [World] and [OutputWriter]):
    - a call to [new Server], [output.build], [fs.mkdirSync], [output.save],
      [server.getAssets], [saveAssets] or [server.end] may return or throw,
      and its answer may depend on everything that happened before it;
    - [logger.error], [logger.info] and the assignment to
      [process.env.NODE_ENV] always return;
    - [chalk.bold], [path.basename] and [path.dirname] are pure functions;
    - what a collaborator does to [process.env] on its own is outside the
      model: the state records the writes of this file only.

    [buildBundle] itself (lines 31-43) only loads the Metro config and hands
    over to [buildBundleWithConfig]. *)

From Stdlib Require Import ZArith String Ascii List.
From stdpp Require Import base option list strings gmap.

Local Open Scope string_scope.
Local Open Scope list_scope.
Local Open Scope Z_scope.

(** ** JavaScript strings and arrays *)

(** The one-character string holding a double quote (code point 34). *)
Definition dquote : string := String (ascii_of_nat 34) EmptyString.

(** JavaScript truthiness of a string: every string but the empty one. *)
Definition truthy (s : string) : bool :=
  match s with
  | EmptyString => false
  | String _ _ => true
  end.

(** [Array.prototype.indexOf] on an array of strings, searched from index
    [i]: the index of the first element strictly equal to [x], or [-1]. *)
Fixpoint indexOf_from (l : list string) (x : string) (i : Z) : Z :=
  match l with
  | [] => -1
  | y :: l' => if String.eqb y x then i else indexOf_from l' x (i + 1)
  end.

Definition indexOf (l : list string) (x : string) : Z := indexOf_from l x 0.

(** [Array.prototype.join] on an array of strings. *)
Definition join (sep : string) (l : list string) : string :=
  String.concat sep l.

(** [s] occurs in [t] as a contiguous piece. *)
Definition Substring (s t : string) : Prop :=
  exists pre post : string, t = pre +:+ s +:+ post.

(** ** JavaScript values and objects *)

(** The values that occur as properties of Metro's bundle options. Values
    this file never inspects (functions, nested objects) are kept opaque. *)
Inductive JsValue : Type :=
| JsUndefined
| JsNull
| JsBool (b : bool)
| JsString (s : string)
| JsOpaque (id : positive).

(** An optional string property: [undefined] when absent. *)
Definition of_optional_string (o : option string) : JsValue :=
  match o with
  | Some s => JsString s
  | None => JsUndefined
  end.

(** Object spread [{...target, ...source}]: the properties of [source]
    win over those of [target]. *)
Definition spread (target source : gmap string JsValue) : gmap string JsValue :=
  source ∪ target.

(** ** The data model *)

Module CommandLineArgs.
(** Modelled from the spec: the type [CommandLineArgs] is declared in
    [bundleCommandLineArgs.ts], which is not among the sources; its fields
    are those of the spec's CommandArgs, under the names the code reads
    them by. Optional fields are [None] when [undefined]. *)
Record t : Type := mk {
  platform : string;
  entryFile : string;
  dev : bool;
  minify : option bool;
  sourcemapOutput : option string;
  sourcemapUseAbsolutePath : bool;
  bundleOutput : string;
  assetsDest : option string;
  assetCatalogDest : option string;
  maxWorkers : option Z;
  resetCache : bool;
  config : option string;
  unstableTransformProfile : option string
}.
End CommandLineArgs.

Module RequestOptions.
(** [interface RequestOptions]. *)
Record t : Type := mk {
  entryFile : string;
  sourceMapUrl : option string;
  dev : bool;
  minify : bool;
  platform : string;
  unstable_transformProfile : option string
}.

(** The own enumerable properties of a [RequestOptions] object literal, as
    object spread sees them: all six keys are present, an [undefined]
    value included. *)
Definition properties (o : t) : gmap string JsValue :=
  <["entryFile" := JsString (entryFile o)]>
  (<["sourceMapUrl" := of_optional_string (sourceMapUrl o)]>
  (<["dev" := JsBool (dev o)]>
  (<["minify" := JsBool (minify o)]>
  (<["platform" := JsString (platform o)]>
  (<["unstable_transformProfile" :=
       of_optional_string (unstable_transformProfile o)]> ∅))))).

End RequestOptions.

Module ConfigT.
(** Metro's [ConfigT], as far as this file reads it:
    [config.resolver.platforms]. *)
Record resolverT : Type := mkResolver { platforms : list string }.
Record t : Type := mk { resolver : resolverT }.
End ConfigT.

(** Options of [fs.mkdirSync]. *)
Record MkdirOptions : Type := { recursive : bool; mode : Z }.

(** What a JavaScript [throw] carries: an [Error] built by this file with
    [new Error(message)], or whatever a collaborator threw. *)
Inductive Thrown : Type :=
| JsError (message : string)
| Foreign (id : positive).

(** How the evaluation of an expression or a call completes. *)
Inductive Completion (A : Type) : Type :=
| Normal (a : A)
| Throw (e : Thrown).
Arguments Normal {A} a.
Arguments Throw {A} e.

(** ** Collaborators, events and the monad *)

Section Orchestrator.

(** The values the orchestrator only passes along: the engine session
    ([Server] instance), the bundle built by the output writer, the asset
    list, and the result of [saveAssets]. *)
Variables (Server Bundle Assets Result : Type).

(** One call to a collaborator, with its arguments, or one write to
    [process.env]. [OutputSave] always receives [logger.info] as its third
    argument, which is therefore not recorded. *)
Inductive Event : Type :=
| LoggerError (msg : string)
| LoggerInfo (msg : string)
| SetEnv (key value : string)
| NewServer (config : ConfigT.t)
| OutputBuild (server : Server) (opts : RequestOptions.t)
| MkdirSync (dir : string) (opts : MkdirOptions)
| OutputSave (bundle : Bundle) (args : CommandLineArgs.t)
| GetAssets (server : Server) (opts : gmap string JsValue)
| SaveAssets (assets : Assets) (platform : string)
    (assetsDest assetCatalogDest : option string)
| ServerEnd (server : Server).

(** The trace of events so far, oldest first. *)
Definition History : Type := list Event.

(** The output writer ([typeof outputBundle]): how [build] and [save]
    complete, given what happened before the call. *)
Record OutputWriter : Type := {
  build : History -> Server -> RequestOptions.t -> Completion Bundle;
  save : History -> Bundle -> CommandLineArgs.t -> Completion unit
}.

(** Everything else the file imports. The pure helpers ([chalk.bold],
    [path.basename], [path.dirname]) are functions; the effectful ones
    answer according to the history of the run. *)
Record World : Type := {
  chalk_bold : string -> string;
  path_basename : string -> string;
  path_dirname : string -> string;
  outputBundle : OutputWriter;
  DEFAULT_BUNDLE_OPTIONS : gmap string JsValue;
  Server_new : History -> ConfigT.t -> Completion Server;
  Server_getAssets :
    History -> Server -> gmap string JsValue -> Completion Assets;
  Server_end : History -> Server -> Completion unit;
  fs_mkdirSync : History -> string -> MkdirOptions -> Completion unit;
  saveAssets :
    History -> Assets -> string -> option string -> option string ->
    Completion Result
}.

(** The state a run threads: [process.env] and the trace. *)
Record State : Type := { env : gmap string string; trace : History }.

Definition M (A : Type) : Type := State -> Completion A * State.

#[local] Instance M_ret : MRet M := fun A a s => (Normal a, s).

#[local] Instance M_bind : MBind M := fun A B k c s =>
  match c s with
  | (Normal a, s') => k a s'
  | (Throw e, s') => (Throw e, s')
  end.

Definition throw {A : Type} (e : Thrown) : M A := fun s => (Throw e, s).

(** A call to a collaborator: it answers from the history before the
    call, and the call is appended to the trace. *)
Definition call {A : Type} (ev : Event) (answer : History -> Completion A)
  : M A :=
  fun s => (answer (trace s), {| env := env s; trace := trace s ++ [ev] |}).

(** [process.env[key] = value]. *)
Definition set_env (key value : string) : M unit :=
  fun s => (Normal tt,
            {| env := <[key := value]> (env s);
               trace := trace s ++ [SetEnv key value] |}).

(** [try { body } finally { fin }], for a [fin] that has no [return]: [fin]
    runs however [body] completes; the statement completes as [body] did,
    unless [fin] throws, and then it throws what [fin] threw. *)
Definition try_finally {A : Type} (body : M A) (fin : M unit) : M A :=
  fun s =>
    let (r, s1) := body s in
    match fin s1 with
    | (Normal _, s2) => (r, s2)
    | (Throw e, s2) => (Throw e, s2)
    end.

(** ** The program *)

Variable w : World.

Definition logger_error (msg : string) : M unit :=
  call (LoggerError msg) (fun _ => Normal tt).

Definition logger_info (msg : string) : M unit :=
  call (LoggerInfo msg) (fun _ => Normal tt).

(** The two diagnostics of lines 56-68. *)
Definition invalid_platform_message (platform : string) : string :=
  "Invalid platform " +:+
  (if truthy platform
   then dquote +:+ chalk_bold w platform +:+ dquote +:+ " "
   else EmptyString) +:+
  "selected.".

Definition available_platforms_message (platforms : list string) : string :=
  "Available platforms are: " +:+
  join ", " (map (fun x => dquote +:+ chalk_bold w x +:+ dquote) platforms) +:+
  ". If you are trying to bundle for an out-of-tree platform, it may not be installed.".

(** Lines 77-89: [sourceMapUrl] and the [requestOpts] literal. *)
Definition requestOpts (args : CommandLineArgs.t) : RequestOptions.t :=
  let sourceMapUrl := CommandLineArgs.sourcemapOutput args in
  let sourceMapUrl :=
    match sourceMapUrl with
    | Some p =>
        if truthy p && negb (CommandLineArgs.sourcemapUseAbsolutePath args)
        then Some (path_basename w p)
        else sourceMapUrl
    | None => sourceMapUrl
    end in
  {| RequestOptions.entryFile := CommandLineArgs.entryFile args;
     RequestOptions.sourceMapUrl := sourceMapUrl;
     RequestOptions.dev := CommandLineArgs.dev args;
     RequestOptions.minify :=
       match CommandLineArgs.minify args with
       | Some m => m
       | None => negb (CommandLineArgs.dev args)
       end;
     RequestOptions.platform := CommandLineArgs.platform args;
     RequestOptions.unstable_transformProfile :=
       CommandLineArgs.unstableTransformProfile args |}.

(** Line 96; [0o755] is 493. *)
Definition mkdirOptions : MkdirOptions :=
  {| recursive := true; mode := 7 * 64 + 5 * 8 + 5 |}.

(** Lines 102-106: the argument of [server.getAssets]. *)
Definition assetsOptions (opts : RequestOptions.t) : gmap string JsValue :=
  <["bundleType" := JsString "todo"]>
    (spread (DEFAULT_BUNDLE_OPTIONS w) (RequestOptions.properties opts)).

(** Lines 93-114: the body of the [try] block. *)
Definition bundleSteps (args : CommandLineArgs.t) (output : OutputWriter)
    (opts : RequestOptions.t) (server : Server) : M Result :=
  bundle ← call (OutputBuild server opts)
                (fun h => build output h server opts);
  let dir := path_dirname w (CommandLineArgs.bundleOutput args) in
  call (MkdirSync dir mkdirOptions)
       (fun h => fs_mkdirSync w h dir mkdirOptions);;
  call (OutputSave bundle args) (fun h => save output h bundle args);;
  let o := assetsOptions opts in
  outputAssets ← call (GetAssets server o)
                      (fun h => Server_getAssets w h server o);
  call (SaveAssets outputAssets (CommandLineArgs.platform args)
          (CommandLineArgs.assetsDest args)
          (CommandLineArgs.assetCatalogDest args))
       (fun h => saveAssets w h outputAssets (CommandLineArgs.platform args)
                   (CommandLineArgs.assetsDest args)
                   (CommandLineArgs.assetCatalogDest args)).

(** Line 116: the [finally] block. *)
Definition releaseServer (server : Server) : M unit :=
  call (ServerEnd server) (fun h => Server_end w h server).

(** Lines 50-118. [output] is [None] when the caller leaves the third
    argument out, and then defaults to [outputBundle]. *)
Definition buildBundleWithConfig (args : CommandLineArgs.t)
    (config : ConfigT.t) (output : option OutputWriter) : M Result :=
  let output := default (outputBundle w) output in
  let platforms := ConfigT.platforms (ConfigT.resolver config) in
  if indexOf platforms (CommandLineArgs.platform args) =? -1 then
    logger_error (invalid_platform_message (CommandLineArgs.platform args));;
    logger_info (available_platforms_message platforms);;
    throw (JsError "Bundling failed")
  else
    set_env "NODE_ENV"
      (if CommandLineArgs.dev args then "development" else "production");;
    let opts := requestOpts args in
    server ← call (NewServer config) (fun h => Server_new w h config);
    try_finally (bundleSteps args output opts server) (releaseServer server).

(** ** Observing a run *)

(** The events a run appended to the trace of its starting state. *)
Definition emitted (s s' : State) : list Event :=
  drop (length (trace s)) (trace s').

Definition completion_of (args : CommandLineArgs.t) (config : ConfigT.t)
    (output : option OutputWriter) (s : State) : Completion Result :=
  (buildBundleWithConfig args config output s).1.

Definition state_after (args : CommandLineArgs.t) (config : ConfigT.t)
    (output : option OutputWriter) (s : State) : State :=
  (buildBundleWithConfig args config output s).2.

Definition events_of (args : CommandLineArgs.t) (config : ConfigT.t)
    (output : option OutputWriter) (s : State) : list Event :=
  emitted s (state_after args config output s).

(** The ways the [try] block can go, read off [bundleSteps] call by call:
    started with history [h], it completes as [r] after the calls [evs].
    Each constructor is one exit of the block: one of the first four calls
    throws, or all four return and the block completes as [saveAssets]
    does ([return await saveAssets(...)]). *)
Inductive BodyOutcome (args : CommandLineArgs.t) (output : OutputWriter)
    (server : Server) (h : History) :
    Completion Result -> list Event -> Prop :=
| build_throws e :
    build output h server (requestOpts args) = Throw e ->
    BodyOutcome args output server h (Throw e)
      [OutputBuild server (requestOpts args)]
| mkdir_throws bundle e :
    let dir := path_dirname w (CommandLineArgs.bundleOutput args) in
    let e1 := OutputBuild server (requestOpts args) in
    let e2 := MkdirSync dir mkdirOptions in
    build output h server (requestOpts args) = Normal bundle ->
    fs_mkdirSync w (h ++ [e1]) dir mkdirOptions = Throw e ->
    BodyOutcome args output server h (Throw e) [e1; e2]
| save_throws bundle e :
    let dir := path_dirname w (CommandLineArgs.bundleOutput args) in
    let e1 := OutputBuild server (requestOpts args) in
    let e2 := MkdirSync dir mkdirOptions in
    let e3 := OutputSave bundle args in
    build output h server (requestOpts args) = Normal bundle ->
    fs_mkdirSync w (h ++ [e1]) dir mkdirOptions = Normal tt ->
    save output (h ++ [e1; e2]) bundle args = Throw e ->
    BodyOutcome args output server h (Throw e) [e1; e2; e3]
| getAssets_throws bundle e :
    let dir := path_dirname w (CommandLineArgs.bundleOutput args) in
    let e1 := OutputBuild server (requestOpts args) in
    let e2 := MkdirSync dir mkdirOptions in
    let e3 := OutputSave bundle args in
    let e4 := GetAssets server (assetsOptions (requestOpts args)) in
    build output h server (requestOpts args) = Normal bundle ->
    fs_mkdirSync w (h ++ [e1]) dir mkdirOptions = Normal tt ->
    save output (h ++ [e1; e2]) bundle args = Normal tt ->
    Server_getAssets w (h ++ [e1; e2; e3]) server
      (assetsOptions (requestOpts args)) = Throw e ->
    BodyOutcome args output server h (Throw e) [e1; e2; e3; e4]
| saveAssets_completes bundle assets r :
    let dir := path_dirname w (CommandLineArgs.bundleOutput args) in
    let e1 := OutputBuild server (requestOpts args) in
    let e2 := MkdirSync dir mkdirOptions in
    let e3 := OutputSave bundle args in
    let e4 := GetAssets server (assetsOptions (requestOpts args)) in
    let e5 := SaveAssets assets (CommandLineArgs.platform args)
                (CommandLineArgs.assetsDest args)
                (CommandLineArgs.assetCatalogDest args) in
    build output h server (requestOpts args) = Normal bundle ->
    fs_mkdirSync w (h ++ [e1]) dir mkdirOptions = Normal tt ->
    save output (h ++ [e1; e2]) bundle args = Normal tt ->
    Server_getAssets w (h ++ [e1; e2; e3]) server
      (assetsOptions (requestOpts args)) = Normal assets ->
    saveAssets w (h ++ [e1; e2; e3; e4]) assets
      (CommandLineArgs.platform args) (CommandLineArgs.assetsDest args)
      (CommandLineArgs.assetCatalogDest args) = r ->
    BodyOutcome args output server h r [e1; e2; e3; e4; e5].

End Orchestrator.

Arguments LoggerError {Server Bundle Assets} msg.
Arguments LoggerInfo {Server Bundle Assets} msg.
Arguments SetEnv {Server Bundle Assets} key value.
Arguments NewServer {Server Bundle Assets} config.
Arguments OutputBuild {Server Bundle Assets} server opts.
Arguments MkdirSync {Server Bundle Assets} dir opts.
Arguments OutputSave {Server Bundle Assets} bundle args.
Arguments GetAssets {Server Bundle Assets} server opts.
Arguments SaveAssets {Server Bundle Assets} assets platform
  assetsDest assetCatalogDest.
Arguments ServerEnd {Server Bundle Assets} server.
Arguments build {Server Bundle Assets} o h server opts.
Arguments save {Server Bundle Assets} o h bundle args.
Arguments chalk_bold {Server Bundle Assets Result} w s.
Arguments path_basename {Server Bundle Assets Result} w s.
Arguments path_dirname {Server Bundle Assets Result} w s.
Arguments outputBundle {Server Bundle Assets Result} w.
Arguments DEFAULT_BUNDLE_OPTIONS {Server Bundle Assets Result} w.
Arguments Server_new {Server Bundle Assets Result} w h config.
Arguments Server_getAssets {Server Bundle Assets Result} w h server opts.
Arguments Server_end {Server Bundle Assets Result} w h server.
Arguments fs_mkdirSync {Server Bundle Assets Result} w h dir opts.
Arguments saveAssets {Server Bundle Assets Result} w h assets platform
  assetsDest assetCatalogDest.
Arguments env {Server Bundle Assets} s.
Arguments trace {Server Bundle Assets} s.
Arguments try_finally {Server Bundle Assets A} body fin s.
Arguments invalid_platform_message {Server Bundle Assets Result} w platform.
Arguments available_platforms_message {Server Bundle Assets Result} w platforms.
Arguments requestOpts {Server Bundle Assets Result} w args.
Arguments assetsOptions {Server Bundle Assets Result} w opts.
Arguments bundleSteps {Server Bundle Assets Result} w args output opts server s.
Arguments releaseServer {Server Bundle Assets Result} w server s.
Arguments buildBundleWithConfig {Server Bundle Assets Result} w args config
  output s.
Arguments emitted {Server Bundle Assets} s s'.
Arguments completion_of {Server Bundle Assets Result} w args config output s.
Arguments state_after {Server Bundle Assets Result} w args config output s.
Arguments events_of {Server Bundle Assets Result} w args config output s.
Arguments BodyOutcome {Server Bundle Assets Result} w args output server h.

(** ** The caller: [buildBundle] *)

Module LoadOptions.
(** The options object of lines 36-40, handed to [loadMetroConfig]. *)
Record t : Type := mk {
  maxWorkers : option Z;
  resetCache : bool;
  config : option string
}.
End LoadOptions.

Section Loader.

Variables (Server Bundle Assets Result : Type).

(** The CLI context ([Config] of cli-types), only passed along. *)
Variable Ctx : Type.

Variable w : World Server Bundle Assets Result.

(** [loadMetroConfig] lives in [tools/loadMetroConfig], outside this file:
    it is any computation that may read and change the state of the
    process, and returns a Metro config or throws. *)
Variable loadMetroConfig :
  Ctx -> LoadOptions.t -> M Server Bundle Assets ConfigT.t.

#[local] Existing Instance M_bind.

(** Lines 31-43. The default of [output] is taken on entry, so
    [buildBundleWithConfig] always receives a writer. *)
Definition buildBundle (args : CommandLineArgs.t) (ctx : Ctx)
    (output : option (OutputWriter Server Bundle Assets))
    : M Server Bundle Assets Result :=
  let output := default (outputBundle w) output in
  config ← loadMetroConfig ctx
             {| LoadOptions.maxWorkers := CommandLineArgs.maxWorkers args;
                LoadOptions.resetCache := CommandLineArgs.resetCache args;
                LoadOptions.config := CommandLineArgs.config args |};
  buildBundleWithConfig w args config (Some output).

End Loader.

Arguments buildBundle {Server Bundle Assets Result Ctx} w loadMetroConfig
  args ctx output s.

(** ** The kinds of calls *)

(** An event without its arguments: which collaborator was called. *)
Inductive Call : Type :=
| CallLoggerError
| CallLoggerInfo
| CallSetEnv
| CallNewServer
| CallOutputBuild
| CallMkdirSync
| CallOutputSave
| CallGetAssets
| CallSaveAssets
| CallServerEnd.

Definition call_of {Server Bundle Assets : Type}
    (ev : Event Server Bundle Assets) : Call :=
  match ev with
  | LoggerError _ => CallLoggerError
  | LoggerInfo _ => CallLoggerInfo
  | SetEnv _ _ => CallSetEnv
  | NewServer _ => CallNewServer
  | OutputBuild _ _ => CallOutputBuild
  | MkdirSync _ _ => CallMkdirSync
  | OutputSave _ _ => CallOutputSave
  | GetAssets _ _ => CallGetAssets
  | SaveAssets _ _ _ _ => CallSaveAssets
  | ServerEnd _ => CallServerEnd
  end.

(** The calls of the [try] block, in the order of lines 93-114. *)
Definition tryBlockCalls : list Call :=
  [CallOutputBuild; CallMkdirSync; CallOutputSave; CallGetAssets;
   CallSaveAssets].

(** ** A sample world

    A concrete instance of the collaborators, used to run the program: the
    POSIX flavour of Node's [path], [chalk.bold] as chalk 4 renders it with
    colours on, sessions, bundles, assets and results as numbers, and one step
    chosen to throw. *)

Module Sample.

Definition slash : ascii := ascii_of_nat 47.

Definition is_slash (c : ascii) : bool := Ascii.eqb c slash.

Definition not_slash (c : ascii) : bool := negb (is_slash c).

Fixpoint drop_while (p : ascii -> bool) (l : list ascii) : list ascii :=
  match l with
  | [] => []
  | c :: l' => if p c then drop_while p l' else l
  end.

Fixpoint take_while (p : ascii -> bool) (l : list ascii) : list ascii :=
  match l with
  | [] => []
  | c :: l' => if p c then c :: take_while p l' else []
  end.

(** [path.posix.basename(p)]: the last component, trailing slashes
    ignored. *)
Definition basename (p : string) : string :=
  string_of_list_ascii
    (rev (take_while not_slash
            (drop_while is_slash (rev (list_ascii_of_string p))))).

(** [path.posix.dirname(p)]. *)
Definition dirname (p : string) : string :=
  match list_ascii_of_string p with
  | [] => "."
  | c :: cs =>
      match drop_while not_slash (drop_while is_slash (rev cs)) with
      | [] => if is_slash c then "/" else "."
      | _ :: before =>
          match before with
          | [] => if is_slash c then "//" else String c EmptyString
          | _ :: _ => string_of_list_ascii (c :: rev before)
          end
      end
  end.

Definition escape : string := String (ascii_of_nat 27) EmptyString.

Definition bold_open : string := escape +:+ "[1m".

Definition bold_close : string := escape +:+ "[22m".

Definition line_feed : ascii := ascii_of_nat 10.

Definition carriage_return : ascii := ascii_of_nat 13.

(** chalk's [stringReplaceAll(s, close, open)]: after every closing code
    already in [s] the style is opened again. [skip] counts the characters
    of a closing code still to pass over. *)
Fixpoint reopen_after_close (s : string) (skip : nat) : string :=
  match s with
  | EmptyString => EmptyString
  | String c s' =>
      match skip with
      | S k => reopen_after_close s' k
      | O =>
          if String.prefix bold_close s
          then bold_close +:+ bold_open
               +:+ reopen_after_close s' (String.length bold_close - 1)
          else String c (reopen_after_close s' 0)
      end
  end.

(** chalk's [stringEncaseCRLFWithFirstIndex]: the style is closed before
    every line break (["\n"] or ["\r\n"]) and opened again after it. *)
Fixpoint close_around_line_breaks (s : string) : string :=
  match s with
  | EmptyString => EmptyString
  | String c s' =>
      if Ascii.eqb c line_feed
      then bold_close +:+ String line_feed (bold_open +:+ close_around_line_breaks s')
      else
        match s' with
        | String c' s'' =>
            if Ascii.eqb c carriage_return && Ascii.eqb c' line_feed
            then bold_close
                 +:+ String carriage_return
                       (String line_feed
                          (bold_open +:+ close_around_line_breaks s''))
            else String c (close_around_line_breaks s')
        | EmptyString => String c EmptyString
        end
  end.

(** [chalk.bold] as chalk 4 renders one string when colours are on
    ([applyStyle]): the empty string stays empty; otherwise the text, with
    the style reopened after closing codes and around line breaks, goes
    between the opening and the closing code. *)
Definition bold (s : string) : string :=
  match s with
  | EmptyString => EmptyString
  | String _ _ =>
      bold_open +:+ close_around_line_breaks (reopen_after_close s 0)
      +:+ bold_close
  end.

Inductive Step : Type :=
| AtNew | AtBuild | AtMkdir | AtSave | AtGetAssets | AtSaveAssets | AtEnd.

Definition Step_eqb (a b : Step) : bool :=
  match a, b with
  | AtNew, AtNew | AtBuild, AtBuild | AtMkdir, AtMkdir | AtSave, AtSave
  | AtGetAssets, AtGetAssets | AtSaveAssets, AtSaveAssets
  | AtEnd, AtEnd => true
  | _, _ => false
  end.

(** A step answers [a], unless it is one of the steps chosen to throw. *)
Definition answer {A : Type} (failing : list Step) (here : Step)
    (code : positive) (a : A) : Completion A :=
  if existsb (Step_eqb here) failing then Throw (Foreign code) else Normal a.

Definition writer (failing : list Step) : OutputWriter nat nat nat :=
  {| build := fun _ _ _ => answer failing AtBuild 2 7%nat;
     save := fun _ _ _ => answer failing AtSave 4 tt |}.

(** Metro's defaults, as far as they matter here. *)
Definition defaults : gmap string JsValue :=
  <["dev" := JsBool true]>
  (<["minify" := JsBool false]>
  (<["sourceMapUrl" := JsNull]>
  (<["runModule" := JsBool true]>
  (<["unstable_transformProfile" := JsString "default"]> ∅)))).

Definition world (failing : list Step) : World nat nat nat nat :=
  {| chalk_bold := bold;
     path_basename := basename;
     path_dirname := dirname;
     outputBundle := writer failing;
     DEFAULT_BUNDLE_OPTIONS := defaults;
     Server_new := fun _ _ => answer failing AtNew 1 1%nat;
     Server_getAssets := fun _ _ _ => answer failing AtGetAssets 5 3%nat;
     Server_end := fun _ _ => answer failing AtEnd 7 tt;
     fs_mkdirSync := fun _ _ _ => answer failing AtMkdir 3 tt;
     saveAssets := fun _ _ _ _ _ => answer failing AtSaveAssets 6 9%nat |}.

Definition config : ConfigT.t :=
  {| ConfigT.resolver := {| ConfigT.platforms := ["ios"; "android"] |} |}.

Definition args (platform : string) : CommandLineArgs.t :=
  {| CommandLineArgs.platform := platform;
     CommandLineArgs.entryFile := "index.js";
     CommandLineArgs.dev := true;
     CommandLineArgs.minify := None;
     CommandLineArgs.sourcemapOutput := Some "/abs/out/bundle.map";
     CommandLineArgs.sourcemapUseAbsolutePath := false;
     CommandLineArgs.bundleOutput := "/abs/out/main.jsbundle";
     CommandLineArgs.assetsDest := Some "/abs/out/assets";
     CommandLineArgs.assetCatalogDest := None;
     CommandLineArgs.maxWorkers := None;
     CommandLineArgs.resetCache := false;
     CommandLineArgs.config := None;
     CommandLineArgs.unstableTransformProfile := None |}.

(** A process that has not run anything yet. *)
Definition start : State nat nat nat :=
  {| env := <["HOME" := "/root"]> ∅; trace := [] |}.

(** The events of the run of [world []] on [args "ios"], one by one. *)
Definition opening : list (Event nat nat nat) :=
  [SetEnv "NODE_ENV" "development"; NewServer config].

Definition built : Event nat nat nat :=
  OutputBuild 1%nat (requestOpts (world []) (args "ios")).

Definition made : Event nat nat nat :=
  MkdirSync "/abs/out" {| recursive := true; mode := 493 |}.

Definition saved : Event nat nat nat := OutputSave 7%nat (args "ios").

Definition asked : Event nat nat nat :=
  GetAssets 1%nat
    (assetsOptions (world []) (requestOpts (world []) (args "ios"))).

Definition stored : Event nat nat nat :=
  SaveAssets 3%nat "ios" (Some "/abs/out/assets") None.

(** A [loadMetroConfig] that logs, then returns [config] or throws. *)
Definition loader (fails : bool) (ctx : unit) (options : LoadOptions.t)
    : M nat nat nat ConfigT.t :=
  fun s =>
    (if fails then Throw (Foreign 8) else Normal config,
     {| env := env s; trace := trace s ++ [LoggerInfo "Loading Metro config"] |}).

(** A second set of arguments: a production build for Android. *)
Definition args_android : CommandLineArgs.t :=
  {| CommandLineArgs.platform := "android";
     CommandLineArgs.entryFile := "index.js";
     CommandLineArgs.dev := false;
     CommandLineArgs.minify := None;
     CommandLineArgs.sourcemapOutput := Some EmptyString;
     CommandLineArgs.sourcemapUseAbsolutePath := false;
     CommandLineArgs.bundleOutput := "/abs/out/android/main.jsbundle";
     CommandLineArgs.assetsDest := None;
     CommandLineArgs.assetCatalogDest := None;
     CommandLineArgs.maxWorkers := None;
     CommandLineArgs.resetCache := false;
     CommandLineArgs.config := None;
     CommandLineArgs.unstableTransformProfile := None |}.

(** A config that supports no platform at all. *)
Definition config_without_platforms : ConfigT.t :=
  {| ConfigT.resolver := {| ConfigT.platforms := [] |} |}.

End Sample.

(** ** Proof steps used repeatedly *)

(** [absent] closes a goal saying that an event of one kind is not in a
    list of events of other kinds. *)
Ltac unfold_lets :=
  repeat match goal with x := _ |- _ => subst x end.

Ltac absent :=
  intros; unfold_lets; rewrite ?not_elem_of_app, ?not_elem_of_cons;
  repeat split; first [discriminate | apply not_elem_of_nil].

(** [positions H pre] finds every way an equation [H] between a list of
    known events and [pre ++ ev :: post] can hold. *)
Ltac positions H pre :=
  unfold_lets; simpl in H;
  repeat (destruct pre as [|? pre]; simplify_eq/=).

(** ** Facts about the JavaScript helpers *)

Lemma indexOf_from_found (l : list string) (x : string) (i : Z) :
  0 <= i -> indexOf_from l x i = -1 \/ i <= indexOf_from l x i.
Proof.
  revert i. induction l as [|y l IH]; intros i Hi; simpl.
  - by left.
  - destruct (String.eqb y x); [right; lia|].
    destruct (IH (i + 1)) as [H|H]; [lia| by left | right; lia].
Qed.

Lemma indexOf_from_absent (l : list string) (x : string) (i : Z) :
  0 <= i -> indexOf_from l x i = -1 <-> x ∉ l.
Proof.
  revert i. induction l as [|y l IH]; intros i Hi; simpl.
  - split; [intros _; apply not_elem_of_nil | done].
  - rewrite not_elem_of_cons.
    destruct (String.eqb_spec y x) as [->|Hne].
    + split; [lia | intros [? _]; done].
    + rewrite IH by lia. split; [intros ?; split; congruence | by intros [_ ?]].
Qed.

(** The test of line 55 holds exactly when the platform is not supported. *)
Lemma indexOf_absent (l : list string) (x : string) :
  (indexOf l x =? -1) = true <-> x ∉ l.
Proof.
  unfold indexOf. rewrite Z.eqb_eq. by apply indexOf_from_absent.
Qed.

Lemma indexOf_present (l : list string) (x : string) :
  x ∈ l -> (indexOf l x =? -1) = false.
Proof.
  intros Hin. destruct (indexOf l x =? -1) eqn:E; [|done].
  apply indexOf_absent in E. done.
Qed.

Lemma append_assoc (a b c : string) : (a +:+ b) +:+ c = a +:+ (b +:+ c).
Proof.
  induction a as [|ch a IH]; [reflexivity|].
  change (String ch ((a +:+ b) +:+ c) = String ch (a +:+ (b +:+ c))).
  by f_equal.
Qed.

Lemma append_empty_r (a : string) : a +:+ EmptyString = a.
Proof.
  induction a as [|ch a IH]; [reflexivity|].
  change (String ch (a +:+ EmptyString) = String ch a). by f_equal.
Qed.

Lemma Substring_refl (s : string) : Substring s s.
Proof.
  exists EmptyString, EmptyString.
  change (s = s +:+ EmptyString). by rewrite append_empty_r.
Qed.

Lemma Substring_trans (a b c : string) :
  Substring a b -> Substring b c -> Substring a c.
Proof.
  intros (p1 & q1 & ->) (p2 & q2 & ->).
  exists (p2 +:+ p1), (q1 +:+ q2). by rewrite !append_assoc.
Qed.

Lemma Substring_app_l (a b s : string) : Substring s a -> Substring s (a +:+ b).
Proof.
  intros (p & q & ->). exists p, (q +:+ b). by rewrite !append_assoc.
Qed.

Lemma Substring_app_r (a b s : string) : Substring s b -> Substring s (a +:+ b).
Proof.
  intros (p & q & ->). exists (a +:+ p), q. by rewrite !append_assoc.
Qed.

(** Every element of a joined array shows in the result. *)
Lemma Substring_join (sep : string) (l : list string) (x : string) :
  x ∈ l -> Substring x (join sep l).
Proof.
  unfold join. induction l as [|y l IH]; intros Hin.
  - by apply elem_of_nil in Hin.
  - apply elem_of_cons in Hin. destruct l as [|z l].
    + destruct Hin as [->|Hin]; [apply Substring_refl|].
      by apply elem_of_nil in Hin.
    + change (String.concat sep (y :: z :: l))
        with (y +:+ sep +:+ String.concat sep (z :: l)).
      destruct Hin as [->|Hin].
      * apply Substring_app_l, Substring_refl.
      * apply Substring_app_r, Substring_app_r. by apply IH.
Qed.

(** ** How a run unfolds *)

Section Properties.

Context {Server Bundle Assets Result : Type}.
Variable w : World Server Bundle Assets Result.

Implicit Types (args : CommandLineArgs.t) (config : ConfigT.t).
Implicit Types (output : option (OutputWriter Server Bundle Assets)).
Implicit Types (s : State Server Bundle Assets).
Implicit Types (server : Server).

Lemma emitted_app s (e : gmap string string)
    (new : list (Event Server Bundle Assets)) :
  emitted s {| env := e; trace := trace s ++ new |} = new.
Proof. unfold emitted. simpl. by rewrite drop_app_length. Qed.

(** The run on an unsupported platform: two diagnostics, then the throw. *)
Lemma run_invalid args config output s :
  CommandLineArgs.platform args ∉ ConfigT.platforms (ConfigT.resolver config) ->
  buildBundleWithConfig w args config output s =
  (Throw (JsError "Bundling failed"),
   {| env := env s;
      trace := trace s ++
        [LoggerError
           (invalid_platform_message w (CommandLineArgs.platform args));
         LoggerInfo
           (available_platforms_message w
              (ConfigT.platforms (ConfigT.resolver config)))] |}).
Proof.
  intros Hout. apply indexOf_absent in Hout.
  unfold buildBundleWithConfig. rewrite Hout.
  cbv [mbind M_bind logger_error logger_info call throw]. simpl.
  by rewrite <- app_assoc.
Qed.

(** The [try] block always completes, in one of the five ways of
    [BodyOutcome], and leaves [process.env] alone. *)
Lemma bundleSteps_outcome args (out : OutputWriter Server Bundle Assets)
    server s :
  exists r evs,
    bundleSteps w args out (requestOpts w args) server s =
      (r, {| env := env s; trace := trace s ++ evs |}) /\
    BodyOutcome w args out server (trace s) r evs.
Proof.
  unfold bundleSteps. cbv [mbind M_bind call]. simpl.
  destruct (build out (trace s) server (requestOpts w args))
    as [bundle|e] eqn:E1.
  2:{ eexists _, _. split; [done|]. by apply build_throws. }
  destruct (fs_mkdirSync w _ _ _) as [[]|e] eqn:E2.
  2:{ eexists _, _. split; [by rewrite <- app_assoc|].
      by eapply mkdir_throws. }
  destruct (save out _ bundle args) as [[]|e] eqn:E3;
    rewrite <- ?app_assoc in E3; simpl in E3.
  2:{ eexists _, _. split; [by rewrite <- !app_assoc|].
      by eapply save_throws. }
  destruct (Server_getAssets w _ server _) as [assets|e] eqn:E4;
    rewrite <- ?app_assoc in E4; simpl in E4.
  2:{ eexists _, _. split; [by rewrite <- !app_assoc|].
      by eapply getAssets_throws. }
  eexists _, _. split; [by rewrite <- !app_assoc|].
  eapply saveAssets_completes; [done..|].
  by rewrite <- ?app_assoc.
Qed.

(** The run on a supported platform, up to the [try] statement. *)
Lemma run_valid args config output s :
  CommandLineArgs.platform args ∈ ConfigT.platforms (ConfigT.resolver config) ->
  let v := if CommandLineArgs.dev args then "development" else "production" in
  let s1 := {| env := <["NODE_ENV" := v]> (env s);
               trace := trace s ++ [SetEnv "NODE_ENV" v; NewServer config] |} in
  buildBundleWithConfig w args config output s =
  match Server_new w (trace s ++ [SetEnv "NODE_ENV" v]) config with
  | Throw e => (Throw e, s1)
  | Normal server =>
      try_finally
        (bundleSteps w args (default (outputBundle w) output)
           (requestOpts w args) server)
        (releaseServer w server) s1
  end.
Proof.
  intros Hin v s1. apply indexOf_present in Hin.
  unfold buildBundleWithConfig. rewrite Hin.
  cbv [mbind M_bind set_env call]. simpl. fold v.
  destruct (Server_new w _ config) as [server|e]; subst s1;
    by rewrite <- app_assoc.
Qed.

(** The two ways a run on a supported platform can go: the constructor of
    [Server] throws and nothing else happens; or a session is made, the
    [try] block goes one of its five ways, and the session is ended. *)
Lemma run_valid_cases args config output s :
  CommandLineArgs.platform args ∈ ConfigT.platforms (ConfigT.resolver config) ->
  let v := if CommandLineArgs.dev args then "development" else "production" in
  let e' := <["NODE_ENV" := v]> (env s) in
  let opening := [SetEnv "NODE_ENV" v; NewServer config] in
  (exists e,
     Server_new w (trace s ++ [SetEnv "NODE_ENV" v]) config = Throw e /\
     buildBundleWithConfig w args config output s =
       (Throw e, {| env := e'; trace := trace s ++ opening |})) \/
  (exists server r evs,
     Server_new w (trace s ++ [SetEnv "NODE_ENV" v]) config = Normal server /\
     BodyOutcome w args (default (outputBundle w) output) server
       (trace s ++ opening) r evs /\
     buildBundleWithConfig w args config output s =
       (match Server_end w (trace s ++ opening ++ evs) server with
        | Normal _ => r
        | Throw e => Throw e
        end,
        {| env := e';
           trace := trace s ++ opening ++ evs ++ [ServerEnd server] |})).
Proof.
  intros Hin v e' opening. rewrite (run_valid _ _ _ _ Hin). fold v.
  destruct (Server_new w _ config) as [server|e] eqn:E.
  - right.
    destruct (bundleSteps_outcome args (default (outputBundle w) output) server
                {| env := e'; trace := trace s ++ opening |})
      as (r & evs & Hrun & Hout).
    exists server, r, evs. split; [done|]. split; [done|].
    unfold try_finally. fold e' opening. rewrite Hrun.
    unfold releaseServer, call. simpl.
    rewrite <- !app_assoc.
    by destruct (Server_end w _ server) as [[]|].
  - left. by exists e.
Qed.

(** What a run on an unsupported platform amounts to. *)
Lemma invalid_run args config output s :
  CommandLineArgs.platform args ∉ ConfigT.platforms (ConfigT.resolver config) ->
  completion_of w args config output s = Throw (JsError "Bundling failed") /\
  events_of w args config output s =
    [LoggerError (invalid_platform_message w (CommandLineArgs.platform args));
     LoggerInfo (available_platforms_message w
                   (ConfigT.platforms (ConfigT.resolver config)))] /\
  env (state_after w args config output s) = env s.
Proof.
  intros Hout. unfold completion_of, events_of, state_after.
  rewrite (run_invalid _ _ _ _ Hout). simpl.
  by rewrite emitted_app.
Qed.

(** What a run on a supported platform amounts to. *)
Lemma valid_run args config output s :
  CommandLineArgs.platform args ∈ ConfigT.platforms (ConfigT.resolver config) ->
  let v := if CommandLineArgs.dev args then "development" else "production" in
  let opening := [SetEnv "NODE_ENV" v; NewServer config] in
  env (state_after w args config output s) = <["NODE_ENV" := v]> (env s) /\
  ((exists e,
      Server_new w (trace s ++ [SetEnv "NODE_ENV" v]) config = Throw e /\
      completion_of w args config output s = Throw e /\
      events_of w args config output s = opening) \/
   (exists server r evs,
      Server_new w (trace s ++ [SetEnv "NODE_ENV" v]) config = Normal server /\
      BodyOutcome w args (default (outputBundle w) output) server
        (trace s ++ opening) r evs /\
      completion_of w args config output s =
        match Server_end w (trace s ++ opening ++ evs) server with
        | Normal _ => r
        | Throw e => Throw e
        end /\
      events_of w args config output s = opening ++ evs ++ [ServerEnd server])).
Proof.
  intros Hin v opening. unfold completion_of, events_of, state_after.
  destruct (run_valid_cases args config output s Hin)
    as [(e & Hnew & ->)|(server & r & evs & Hnew & Hbody & ->)]; simpl;
    (split; [done|]); rewrite emitted_app.
  - left. by exists e.
  - right. by exists server, r, evs.
Qed.

(** Whatever the run, the output writer's [build] is only ever called
    with the computed request options. *)
Lemma build_receives_requestOpts args config output s server opts :
  OutputBuild server opts ∈ events_of w args config output s ->
  opts = requestOpts w args.
Proof.
  intros Hev.
  destruct (decide (CommandLineArgs.platform args
                      ∈ ConfigT.platforms (ConfigT.resolver config)))
    as [Hin|Hout].
  - destruct (valid_run args config output s Hin)
      as (_ & [(e & _ & _ & Hevs)|(server' & r & evs & _ & Hbody & _ & Hevs)]);
      rewrite Hevs in Hev; [|destruct Hbody];
      set_unfold; destruct_or?; simplify_eq; done.
  - destruct (invalid_run args config output s Hout) as (_ & Hevs & _).
    rewrite Hevs in Hev. set_unfold; destruct_or?; simplify_eq; done.
Qed.




End Properties.

(** ** The specification, claim by claim *)

Section Specification.

Context {Server Bundle Assets Result : Type}.
Variable w : World Server Bundle Assets Result.

Implicit Types (args : CommandLineArgs.t) (config : ConfigT.t).
Implicit Types (output : option (OutputWriter Server Bundle Assets)).
Implicit Types (s : State Server Bundle Assets).
Implicit Types (server : Server).

(** C1. In every invocation in which platform validation succeeds and the
    [Server] session is constructed, [server.end] is invoked exactly once
    and as the last thing the invocation does, however the [try] block
    exits: the build step throws, the directory creation throws, the save
    step throws, the asset request throws, or [saveAssets] completes
    (normally or by throwing). The invocation then completes as the block
    did, so an error of one of those steps reaches the caller after the
    session was ended; only an error thrown by [server.end] itself takes
    its place. *)
Theorem session_released_exactly_once args config output s server :
  CommandLineArgs.platform args ∈ ConfigT.platforms (ConfigT.resolver config) ->
  let v := if CommandLineArgs.dev args then "development" else "production" in
  let opening := [SetEnv "NODE_ENV" v; NewServer config] in
  Server_new w (trace s ++ [SetEnv "NODE_ENV" v]) config = Normal server ->
  exists r evs,
    BodyOutcome w args (default (outputBundle w) output) server
      (trace s ++ opening) r evs /\
    events_of w args config output s = opening ++ evs ++ [ServerEnd server] /\
    (forall x, ServerEnd x ∉ opening ++ evs) /\
    completion_of w args config output s =
      match Server_end w (trace s ++ opening ++ evs) server with
      | Normal _ => r
      | Throw e => Throw e
      end.
Proof.
  intros Hin v opening Hnew.
  destruct (valid_run w args config output s Hin)
    as (_ & [(e & Hnew' & _)|(server' & r & evs & Hnew' & Hbody & Hc & Hev)]);
    fold v in Hnew'; rewrite Hnew in Hnew'; [done|].
  injection Hnew' as <-. exists r, evs. repeat split; try done.
  destruct Hbody; absent.
Qed.

(** C2. When [args.platform] is not a member of
    [config.resolver.platforms], [buildBundleWithConfig] fails with the
    generic error whose message is "Bundling failed"; it constructs no
    [Server], and never invokes the build, directory-creation, bundle-save,
    asset-request or asset-save step (nor [server.end]): all it did was
    log. *)
Theorem invalid_platform_fails_without_session args config output s :
  CommandLineArgs.platform args ∉ ConfigT.platforms (ConfigT.resolver config) ->
  let events := events_of w args config output s in
  completion_of w args config output s = Throw (JsError "Bundling failed") /\
  (forall c, NewServer c ∉ events) /\
  (forall sv o, OutputBuild sv o ∉ events) /\
  (forall d o, MkdirSync d o ∉ events) /\
  (forall b a, OutputSave b a ∉ events) /\
  (forall sv o, GetAssets sv o ∉ events) /\
  (forall a p d c, SaveAssets a p d c ∉ events) /\
  (forall sv, ServerEnd sv ∉ events) /\
  (forall ev, ev ∈ events -> exists msg, ev = LoggerError msg \/ ev = LoggerInfo msg).
Proof.
  intros Hout events.
  destruct (invalid_run w args config output s Hout) as (Hc & Hev & _).
  subst events. rewrite Hev. split; [done|].
  repeat split; try absent.
  intros ev Hin. apply elem_of_cons in Hin as [->|Hin]; [eauto|].
  apply elem_of_cons in Hin as [->|Hin]; [eauto|].
  by apply elem_of_nil in Hin.
Qed.

(** C3. The [minify] of the computed request options is [args.minify] when
    that is defined and the negation of [args.dev] when it is undefined;
    and these are the options every call to the output writer's [build]
    receives. *)
Theorem minify_option args :
  let minify :=
    match CommandLineArgs.minify args with
    | Some m => m
    | None => negb (CommandLineArgs.dev args)
    end in
  RequestOptions.minify (requestOpts w args) = minify /\
  forall config output s server opts,
    OutputBuild server opts ∈ events_of w args config output s ->
    RequestOptions.minify opts = minify.
Proof.
  intros minify. split; [done|].
  intros config output s server opts Hev.
  by rewrite (build_receives_requestOpts w _ _ _ _ _ _ Hev).
Qed.

(** C4. Provided [path.basename] maps the empty string to itself (Node's
    does), the [sourceMapUrl] of the computed request options is undefined
    when [args.sourcemapOutput] is absent; otherwise it is the basename of
    [args.sourcemapOutput] when [args.sourcemapUseAbsolutePath] is false,
    and [args.sourcemapOutput] unchanged when it is true; and these are
    the options every call to the output writer's [build] receives. *)
Theorem sourceMapUrl_option args :
  path_basename w EmptyString = EmptyString ->
  let sourceMapUrl :=
    match CommandLineArgs.sourcemapOutput args with
    | None => None
    | Some p =>
        if CommandLineArgs.sourcemapUseAbsolutePath args
        then Some p
        else Some (path_basename w p)
    end in
  RequestOptions.sourceMapUrl (requestOpts w args) = sourceMapUrl /\
  forall config output s server opts,
    OutputBuild server opts ∈ events_of w args config output s ->
    RequestOptions.sourceMapUrl opts = sourceMapUrl.
Proof.
  intros Hempty sourceMapUrl.
  assert (RequestOptions.sourceMapUrl (requestOpts w args) = sourceMapUrl)
    as Hpure.
  { subst sourceMapUrl. unfold requestOpts. simpl.
    destruct (CommandLineArgs.sourcemapOutput args) as [p|]; [|done].
    destruct (CommandLineArgs.sourcemapUseAbsolutePath args);
      destruct p as [|ch p]; simpl; try done.
    by rewrite Hempty. }
  split; [done|].
  intros config output s server opts Hev.
  by rewrite (build_receives_requestOpts w _ _ _ _ _ _ Hev).
Qed.


(** C6. In every run that passes platform validation, [process.env.NODE_ENV]
    is set to "development" when [args.dev] is true and to "production"
    when it is false. That write is the first thing the run does, the
    construction of the [Server] comes right after it, and the run writes
    nothing to [process.env] afterwards: on every path the call ends with
    the environment it found, updated at [NODE_ENV]. *)
Theorem node_env_set_before_session args config output s :
  CommandLineArgs.platform args ∈ ConfigT.platforms (ConfigT.resolver config) ->
  let v := if CommandLineArgs.dev args then "development" else "production" in
  env (state_after w args config output s) !! "NODE_ENV" = Some v /\
  env (state_after w args config output s) = <["NODE_ENV" := v]> (env s) /\
  exists rest,
    events_of w args config output s =
      SetEnv "NODE_ENV" v :: NewServer config :: rest /\
    (forall key value, SetEnv key value ∉ rest) /\
    (forall c, NewServer c ∉ rest).
Proof.
  intros Hin v.
  destruct (valid_run w args config output s Hin) as (Henv & Hcases).
  fold v in Henv, Hcases. rewrite Henv.
  split; [apply lookup_insert_eq|]. split; [done|].
  destruct Hcases as [(e & _ & _ & ->)|(server & r & evs & _ & Hbody & _ & ->)].
  - exists []. repeat split; intros; apply not_elem_of_nil.
  - exists (evs ++ [ServerEnd server]). split; [done|].
    split; destruct Hbody; absent.
Qed.


(** C8. When [args.platform] is absent from the supported platforms, the
    run logs, before it fails, exactly two diagnostics, whose texts are
    those of lines 56-68: an error built around the requested platform as
    [chalk.bold] renders it (a non-empty platform is shown between double
    quotes), and an info that joins all supported platforms, in order,
    each between double quotes as [chalk.bold] renders it. The error so
    includes the invalid platform, and the info every supported platform,
    for display; they include the platform strings themselves wherever
    [chalk.bold] keeps the text of that platform. *)
Theorem invalid_platform_diagnostics args config output s :
  CommandLineArgs.platform args ∉ ConfigT.platforms (ConfigT.resolver config) ->
  let platform := CommandLineArgs.platform args in
  let platforms := ConfigT.platforms (ConfigT.resolver config) in
  let shown := fun x => dquote +:+ chalk_bold w x +:+ dquote in
  let error :=
    "Invalid platform "
    +:+ (if truthy platform
         then dquote +:+ chalk_bold w platform +:+ dquote +:+ " "
         else EmptyString)
    +:+ "selected." in
  let info :=
    "Available platforms are: " +:+ join ", " (map shown platforms)
    +:+ ". If you are trying to bundle for an out-of-tree platform, it may not be installed." in
  events_of w args config output s = [LoggerError error; LoggerInfo info] /\
  completion_of w args config output s = Throw (JsError "Bundling failed") /\
  (truthy platform = true -> Substring (shown platform) error) /\
  (forall x, x ∈ platforms -> Substring (shown x) info) /\
  (Substring platform (chalk_bold w platform) -> Substring platform error) /\
  (forall x, x ∈ platforms -> Substring x (chalk_bold w x) -> Substring x info).
Proof.
  intros Hout platform platforms shown error info.
  destruct (invalid_run w args config output s Hout) as (Hc & Hev & _).
  split; [exact Hev|]. split; [exact Hc|].
  assert (forall x, x ∈ platforms -> Substring (shown x) info) as Hinfo.
  { intros x Hx. subst info.
    apply Substring_app_r, Substring_app_l, Substring_join.
    by apply (list_elem_of_fmap_2 shown). }
  assert (truthy platform = true -> Substring (shown platform) error) as Herror.
  { intros Ht. subst error. rewrite Ht.
    apply Substring_app_r, Substring_app_l.
    exists EmptyString, " ". subst shown. cbv beta.
    by rewrite !append_assoc. }
  split; [exact Herror|]. split; [exact Hinfo|]. split.
  - intros Hbold. destruct (truthy platform) eqn:Ht.
    + apply Substring_trans with (shown platform); [|by apply Herror].
      apply Substring_app_r, Substring_app_l, Hbold.
    + destruct platform; [|done].
      exists EmptyString, error. reflexivity.
  - intros x Hx Hbold.
    apply Substring_trans with (shown x); [|by apply Hinfo].
    apply Substring_app_r, Substring_app_l, Hbold.
Qed.

(** C9. A run that completes without error returns exactly what
    [saveAssets] returned: [saveAssets] was the last call before
    [server.end], it was given the asset list, [args.platform],
    [args.assetsDest] and [args.assetCatalogDest], and its value is the
    value of the run. *)
Theorem returns_result_of_saveAssets args config output s result :
  completion_of w args config output s = Normal result ->
  exists server assets pre,
    events_of w args config output s =
      pre ++ [SaveAssets assets (CommandLineArgs.platform args)
                (CommandLineArgs.assetsDest args)
                (CommandLineArgs.assetCatalogDest args);
              ServerEnd server] /\
    saveAssets w (trace s ++ pre) assets (CommandLineArgs.platform args)
      (CommandLineArgs.assetsDest args)
      (CommandLineArgs.assetCatalogDest args) = Normal result.
Proof.
  intros Hret.
  destruct (decide (CommandLineArgs.platform args
                      ∈ ConfigT.platforms (ConfigT.resolver config)))
    as [Hin|Hout].
  2:{ destruct (invalid_run w args config output s Hout) as (Hc & _).
      congruence. }
  destruct (valid_run w args config output s Hin)
    as (_ & [(e & _ & Hc & _)|(server & r & evs & _ & Hbody & Hc & Hevs)]);
    [congruence|].
  rewrite Hc in Hret.
  destruct (Server_end w _ server) as [[]|]; [|done].
  destruct Hbody as [| | | |bundle assets r dir e1 e2 e3 e4 e5 _ _ _ _ Hsa];
    try done.
  exists server, assets. eexists (_ :: _ :: [e1; e2; e3; e4]).
  split; [by rewrite Hevs|].
  rewrite <- app_assoc in Hsa. simpl in Hsa. congruence.
Qed.

(** C10. When platform validation fails, the call leaves [process.env]
    exactly as it found it: the run makes no write to it at all, to
    [NODE_ENV] or otherwise. *)
Theorem invalid_platform_keeps_environment args config output s :
  CommandLineArgs.platform args ∉ ConfigT.platforms (ConfigT.resolver config) ->
  env (state_after w args config output s) = env s /\
  env (state_after w args config output s) !! "NODE_ENV" = env s !! "NODE_ENV" /\
  (forall key value, SetEnv key value ∉ events_of w args config output s).
Proof.
  intros Hout.
  destruct (invalid_run w args config output s Hout) as (_ & Hev & Henv).
  rewrite Hev, Henv. repeat split. absent.
Qed.

End Specification.

(** ** Beyond the specification: what else the code shows *)

Section Further.

Context {Server Bundle Assets Result : Type}.
Variable w : World Server Bundle Assets Result.

Implicit Types (args : CommandLineArgs.t) (config : ConfigT.t).
Implicit Types (output : option (OutputWriter Server Bundle Assets)).
Implicit Types (s : State Server Bundle Assets).
Implicit Types (server : Server).

(** From a given history the [try] block goes exactly one way. *)
Lemma BodyOutcome_functional args (out : OutputWriter Server Bundle Assets)
    server h r1 evs1 r2 evs2 :
  BodyOutcome w args out server h r1 evs1 ->
  BodyOutcome w args out server h r2 evs2 ->
  r1 = r2 /\ evs1 = evs2.
Proof.
  intros H1 H2. destruct H1; destruct H2; unfold_lets;
    repeat match goal with
           | H : ?x = Normal _, H' : ?x = Throw _ |- _ => congruence
           | H : ?x = Normal ?a, H' : ?x = Normal ?b |- _ =>
               assert (a = b) by congruence; subst; clear H'
           end;
    try (split; congruence).
Qed.

(** A run only appends to the trace. *)
Lemma trace_after args config output s :
  trace (state_after w args config output s)
  = trace s ++ events_of w args config output s.
Proof.
  unfold events_of, state_after.
  destruct (decide (CommandLineArgs.platform args
                      ∈ ConfigT.platforms (ConfigT.resolver config)))
    as [Hin|Hout].
  - destruct (run_valid_cases w args config output s Hin)
      as [(e & _ & ->)|(server & r & evs & _ & _ & ->)];
      simpl; by rewrite emitted_app.
  - rewrite (run_invalid w _ _ _ _ Hout). simpl. by rewrite emitted_app.
Qed.

(** The run with a session, from the way its [try] block goes. *)
Lemma run_with_session args config output s server r evs :
  CommandLineArgs.platform args ∈ ConfigT.platforms (ConfigT.resolver config) ->
  let v := if CommandLineArgs.dev args then "development" else "production" in
  let opening := [SetEnv "NODE_ENV" v; NewServer config] in
  Server_new w (trace s ++ [SetEnv "NODE_ENV" v]) config = Normal server ->
  BodyOutcome w args (default (outputBundle w) output) server
    (trace s ++ opening) r evs ->
  completion_of w args config output s =
    match Server_end w (trace s ++ opening ++ evs) server with
    | Normal _ => r
    | Throw e => Throw e
    end /\
  events_of w args config output s = opening ++ evs ++ [ServerEnd server].
Proof.
  intros Hin v opening Hnew Hbody.
  destruct (valid_run w args config output s Hin)
    as (_ & [(e & Hnew' & _)|(server' & r' & evs' & Hnew' & Hbody' & Hc & Hev)]);
    fold v in Hnew'; rewrite Hnew in Hnew'; [done|].
  injection Hnew' as <-.
  destruct (BodyOutcome_functional _ _ _ _ _ _ _ _ Hbody Hbody') as [-> ->].
  done.
Qed.

(** X3. When platform validation passes and the constructor of [Server]
    throws, the run throws that very error; it has written [NODE_ENV] and
    called the constructor, nothing else: there is no session, and
    [server.end] is not called. *)
Theorem constructor_failure args config output s e :
  CommandLineArgs.platform args ∈ ConfigT.platforms (ConfigT.resolver config) ->
  let v := if CommandLineArgs.dev args then "development" else "production" in
  Server_new w (trace s ++ [SetEnv "NODE_ENV" v]) config = Throw e ->
  completion_of w args config output s = Throw e /\
  events_of w args config output s = [SetEnv "NODE_ENV" v; NewServer config] /\
  env (state_after w args config output s) !! "NODE_ENV" = Some v.
Proof.
  intros Hin v Hnew.
  destruct (valid_run w args config output s Hin)
    as (Henv & [(e' & Hnew' & Hc & Hev)|(server & r & evs & Hnew' & _)]);
    fold v in Hnew', Henv; rewrite Hnew in Hnew'; [|done].
  injection Hnew' as <-. rewrite Henv. split; [done|]. split; [done|].
  apply lookup_insert_eq.
Qed.

(** X4. When [server.end] throws, the caller gets the error of
    [server.end], whichever way the [try] block went: the error of a failed
    step, or the result of a successful run, is lost. *)
Theorem end_error_masks_outcome args config output s server r evs e :
  CommandLineArgs.platform args ∈ ConfigT.platforms (ConfigT.resolver config) ->
  let v := if CommandLineArgs.dev args then "development" else "production" in
  let opening := [SetEnv "NODE_ENV" v; NewServer config] in
  Server_new w (trace s ++ [SetEnv "NODE_ENV" v]) config = Normal server ->
  BodyOutcome w args (default (outputBundle w) output) server
    (trace s ++ opening) r evs ->
  Server_end w (trace s ++ opening ++ evs) server = Throw e ->
  completion_of w args config output s = Throw e /\
  events_of w args config output s = opening ++ evs ++ [ServerEnd server].
Proof.
  intros Hin v opening Hnew Hbody Hend.
  destruct (run_with_session args config output s server r evs Hin Hnew Hbody)
    as [Hc Hev].
  fold v opening in Hc. by rewrite Hend in Hc.
Qed.

(** X5. When validation passes and every call returns, the run returns the
    value of [saveAssets], after exactly eight events: the write to
    [NODE_ENV], the construction of the session, build, directory creation,
    save, asset request, asset save, and [server.end]. *)
Theorem successful_run args config output s server bundle assets result :
  CommandLineArgs.platform args ∈ ConfigT.platforms (ConfigT.resolver config) ->
  let v := if CommandLineArgs.dev args then "development" else "production" in
  let out := default (outputBundle w) output in
  let dir := path_dirname w (CommandLineArgs.bundleOutput args) in
  let e1 := SetEnv "NODE_ENV" v in
  let e2 := NewServer config in
  let e3 := OutputBuild server (requestOpts w args) in
  let e4 := MkdirSync dir {| recursive := true; mode := 493 |} in
  let e5 := OutputSave bundle args in
  let e6 := GetAssets server (assetsOptions w (requestOpts w args)) in
  let e7 := SaveAssets assets (CommandLineArgs.platform args)
              (CommandLineArgs.assetsDest args)
              (CommandLineArgs.assetCatalogDest args) in
  Server_new w (trace s ++ [e1]) config = Normal server ->
  build out (trace s ++ [e1; e2]) server (requestOpts w args) = Normal bundle ->
  fs_mkdirSync w (trace s ++ [e1; e2; e3]) dir
    {| recursive := true; mode := 493 |} = Normal tt ->
  save out (trace s ++ [e1; e2; e3; e4]) bundle args = Normal tt ->
  Server_getAssets w (trace s ++ [e1; e2; e3; e4; e5]) server
    (assetsOptions w (requestOpts w args)) = Normal assets ->
  saveAssets w (trace s ++ [e1; e2; e3; e4; e5; e6]) assets
    (CommandLineArgs.platform args) (CommandLineArgs.assetsDest args)
    (CommandLineArgs.assetCatalogDest args) = Normal result ->
  Server_end w (trace s ++ [e1; e2; e3; e4; e5; e6; e7]) server = Normal tt ->
  completion_of w args config output s = Normal result /\
  events_of w args config output s =
    [e1; e2; e3; e4; e5; e6; e7; ServerEnd server].
Proof.
  intros Hin v out dir e1 e2 e3 e4 e5 e6 e7 Hnew Hb Hm Hs Hg Hsa Hend.
  assert (BodyOutcome w args out server (trace s ++ [e1; e2]) (Normal result)
            [e3; e4; e5; e6; e7]) as Hbody.
  { eapply saveAssets_completes; rewrite <- ?app_assoc; simpl; eassumption. }
  destruct (run_with_session args config output s server _ _ Hin Hnew Hbody)
    as [Hc Hev].
  fold v e1 e2 in Hc, Hev. simpl in Hc, Hev.
  by rewrite Hend in Hc.
Qed.

(** X6. When the output writer's build step throws, no file is touched and
    no asset is requested: the only calls after it is [server.end], and the
    caller gets the error of the build step (unless [server.end] throws
    too). *)
Theorem failed_build_touches_nothing args config output s server e :
  CommandLineArgs.platform args ∈ ConfigT.platforms (ConfigT.resolver config) ->
  let v := if CommandLineArgs.dev args then "development" else "production" in
  let out := default (outputBundle w) output in
  let e1 := SetEnv "NODE_ENV" v in
  let e2 := NewServer config in
  let e3 := OutputBuild server (requestOpts w args) in
  let events := events_of w args config output s in
  Server_new w (trace s ++ [e1]) config = Normal server ->
  build out (trace s ++ [e1; e2]) server (requestOpts w args) = Throw e ->
  events = [e1; e2; e3; ServerEnd server] /\
  (forall d o, MkdirSync d o ∉ events) /\
  (forall b a, OutputSave b a ∉ events) /\
  (forall sv o, GetAssets sv o ∉ events) /\
  (forall a p d c, SaveAssets a p d c ∉ events) /\
  completion_of w args config output s =
    match Server_end w (trace s ++ [e1; e2; e3]) server with
    | Normal _ => Throw e
    | Throw e' => Throw e'
    end.
Proof.
  intros Hin v out e1 e2 e3 events Hnew Hb.
  assert (BodyOutcome w args out server (trace s ++ [e1; e2]) (Throw e) [e3])
    as Hbody by (by apply build_throws).
  destruct (run_with_session args config output s server _ _ Hin Hnew Hbody)
    as [Hc Hev].
  fold v e1 e2 in Hc, Hev. simpl in Hc, Hev.
  subst events. rewrite Hev. split; [done|].
  repeat (split; [absent|]). exact Hc.
Qed.

(** X7. When the build step returns and the directory creation throws, the
    bundle is never saved and no asset is requested or saved; the caller
    gets the error of [fs.mkdirSync] (unless [server.end] throws too). *)
Theorem failed_mkdir_prevents_save args config output s server bundle e :
  CommandLineArgs.platform args ∈ ConfigT.platforms (ConfigT.resolver config) ->
  let v := if CommandLineArgs.dev args then "development" else "production" in
  let out := default (outputBundle w) output in
  let dir := path_dirname w (CommandLineArgs.bundleOutput args) in
  let e1 := SetEnv "NODE_ENV" v in
  let e2 := NewServer config in
  let e3 := OutputBuild server (requestOpts w args) in
  let e4 := MkdirSync dir {| recursive := true; mode := 493 |} in
  let events := events_of w args config output s in
  Server_new w (trace s ++ [e1]) config = Normal server ->
  build out (trace s ++ [e1; e2]) server (requestOpts w args) = Normal bundle ->
  fs_mkdirSync w (trace s ++ [e1; e2; e3]) dir
    {| recursive := true; mode := 493 |} = Throw e ->
  events = [e1; e2; e3; e4; ServerEnd server] /\
  (forall b a, OutputSave b a ∉ events) /\
  (forall sv o, GetAssets sv o ∉ events) /\
  (forall a p d c, SaveAssets a p d c ∉ events) /\
  completion_of w args config output s =
    match Server_end w (trace s ++ [e1; e2; e3; e4]) server with
    | Normal _ => Throw e
    | Throw e' => Throw e'
    end.
Proof.
  intros Hin v out dir e1 e2 e3 e4 events Hnew Hb Hm.
  assert (BodyOutcome w args out server (trace s ++ [e1; e2]) (Throw e)
            [e3; e4]) as Hbody.
  { eapply mkdir_throws; rewrite <- ?app_assoc; simpl; eassumption. }
  destruct (run_with_session args config output s server _ _ Hin Hnew Hbody)
    as [Hc Hev].
  fold v e1 e2 in Hc, Hev. simpl in Hc, Hev.
  subst events. rewrite Hev. split; [done|].
  repeat (split; [absent|]). exact Hc.
Qed.

(** X8. Every run on a supported platform makes its calls in the order of
    the source, none twice and none skipped. When the constructor of
    [Server] throws, the calls are the write to [NODE_ENV] and the
    constructor. When it returns a session, these two are followed by the
    first [n] calls of the [try] block, for some [n] from one to five, and
    then by [server.end] on that session, which is the last event; and a
    run that returns has made all five. *)
Theorem calls_in_source_order args config output s :
  CommandLineArgs.platform args ∈ ConfigT.platforms (ConfigT.resolver config) ->
  let v := if CommandLineArgs.dev args then "development" else "production" in
  let events := events_of w args config output s in
  (forall e,
     Server_new w (trace s ++ [SetEnv "NODE_ENV" v]) config = Throw e ->
     map call_of events = [CallSetEnv; CallNewServer]) /\
  (forall server,
     Server_new w (trace s ++ [SetEnv "NODE_ENV" v]) config = Normal server ->
     exists n, (1 <= n <= 5)%nat /\
       map call_of events
       = [CallSetEnv; CallNewServer] ++ take n tryBlockCalls
           ++ [CallServerEnd] /\
       last events = Some (ServerEnd server) /\
       (forall result,
          completion_of w args config output s = Normal result -> n = 5%nat)).
Proof.
  intros Hin v events. subst events.
  destruct (valid_run w args config output s Hin)
    as (_ & [(e & Hnew & _ & ->)|(server & r & evs & Hnew & Hbody & Hc & ->)]);
    fold v in Hnew; (split; [intros e' Hnew'|intros server' Hnew']);
    rewrite Hnew in Hnew'; try done.
  injection Hnew' as <-. rewrite Hc.
  destruct Hbody;
    [exists 1%nat|exists 2%nat|exists 3%nat|exists 4%nat|exists 5%nat];
    (split; [lia|]); (split; [reflexivity|]); (split; [reflexivity|]);
    intros result Hret; try done;
    by destruct (Server_end w _ server) as [[]|].
Qed.

(** X9. Whatever the run, the bundle handed to the output writer's [save]
    is the one its [build] returned earlier in the run for the computed
    request options, and [save] is given the caller's [args] as they
    are. *)
Theorem saved_bundle_is_built_bundle args config output s bundle a :
  let events := events_of w args config output s in
  let out := default (outputBundle w) output in
  OutputSave bundle a ∈ events ->
  a = args /\
  exists pre server post,
    events = pre ++ OutputBuild server (requestOpts w args) :: post /\
    OutputSave bundle a ∈ post /\
    build out (trace s ++ pre) server (requestOpts w args) = Normal bundle.
Proof.
  intros events out Hev. subst events.
  apply list_elem_of_split in Hev as (pre & post & Hpos).
  destruct (decide (CommandLineArgs.platform args
                      ∈ ConfigT.platforms (ConfigT.resolver config)))
    as [Hin|Hout].
  2:{ destruct (invalid_run w args config output s Hout) as (_ & Hevs & _).
      rewrite Hevs in Hpos. positions Hpos pre. }
  destruct (valid_run w args config output s Hin)
    as (_ & [(e & _ & _ & Hevs)|(server & r & evs & _ & Hbody & _ & Hevs)]);
    rewrite Hevs in *; clear Hevs.
  { positions Hpos pre. }
  destruct Hbody; positions Hpos pre.
  all: split; [done|]; eexists [_; _], _, _.
  all: split; [reflexivity|]; split; [|eassumption].
  all: repeat first [apply list_elem_of_here | apply list_elem_of_further].
Qed.

(** X10. Whatever the run, the asset list handed to [saveAssets] is the one
    [server.getAssets] returned earlier in the run, and it goes with
    [args.platform], [args.assetsDest] and [args.assetCatalogDest]. *)
Theorem saved_assets_are_requested_assets args config output s assets p d c :
  let events := events_of w args config output s in
  SaveAssets assets p d c ∈ events ->
  p = CommandLineArgs.platform args /\
  d = CommandLineArgs.assetsDest args /\
  c = CommandLineArgs.assetCatalogDest args /\
  exists pre server o post,
    events = pre ++ GetAssets server o :: post /\
    SaveAssets assets p d c ∈ post /\
    Server_getAssets w (trace s ++ pre) server o = Normal assets.
Proof.
  intros events Hev. subst events.
  apply list_elem_of_split in Hev as (pre & post & Hpos).
  destruct (decide (CommandLineArgs.platform args
                      ∈ ConfigT.platforms (ConfigT.resolver config)))
    as [Hin|Hout].
  2:{ destruct (invalid_run w args config output s Hout) as (_ & Hevs & _).
      rewrite Hevs in Hpos. positions Hpos pre. }
  destruct (valid_run w args config output s Hin)
    as (_ & [(e & _ & _ & Hevs)|(server & r & evs & _ & Hbody & _ & Hevs)]);
    rewrite Hevs in *; clear Hevs.
  { positions Hpos pre. }
  destruct Hbody; positions Hpos pre.
  repeat (split; [done|]).
  eexists [_; _; _; _; _], _, _, _.
  split; [reflexivity|].
  split; [repeat first [apply list_elem_of_here | apply list_elem_of_further]|].
  match goal with
  | H : Server_getAssets _ _ _ _ = Normal _ |- _ =>
      rewrite <- app_assoc in H; exact H
  end.
Qed.

(** X11. Whatever the run, no variable of [process.env] other than
    [NODE_ENV] is changed by it. *)
Theorem other_variables_untouched args config output s (key : string) :
  key <> "NODE_ENV" ->
  env (state_after w args config output s) !! key = env s !! key.
Proof.
  intros Hkey.
  destruct (decide (CommandLineArgs.platform args
                      ∈ ConfigT.platforms (ConfigT.resolver config)))
    as [Hin|Hout].
  - destruct (valid_run w args config output s Hin) as (-> & _).
    by rewrite lookup_insert_ne.
  - by destruct (invalid_run w args config output s Hout) as (_ & _ & ->).
Qed.

(** X12. Two calls in a row, as when one config is reused for several
    platforms: the second run appends its events after those of the first;
    if it passes validation, [NODE_ENV] ends as the second run set it (the
    last writer wins); if it fails validation, [NODE_ENV] stays as the
    first run set it. *)
Theorem consecutive_runs args1 config1 output1 args2 config2 output2 s :
  CommandLineArgs.platform args1
    ∈ ConfigT.platforms (ConfigT.resolver config1) ->
  let v1 := if CommandLineArgs.dev args1 then "development" else "production" in
  let v2 := if CommandLineArgs.dev args2 then "development" else "production" in
  let s1 := state_after w args1 config1 output1 s in
  let s2 := state_after w args2 config2 output2 s1 in
  trace s2 = trace s ++ events_of w args1 config1 output1 s
               ++ events_of w args2 config2 output2 s1 /\
  (CommandLineArgs.platform args2
     ∈ ConfigT.platforms (ConfigT.resolver config2) ->
   env s2 = <["NODE_ENV" := v2]> (env s)) /\
  (CommandLineArgs.platform args2
     ∉ ConfigT.platforms (ConfigT.resolver config2) ->
   env s2 = <["NODE_ENV" := v1]> (env s)).
Proof.
  intros Hin1 v1 v2 s1 s2. subst s2. split; [|split].
  - rewrite trace_after. subst s1. by rewrite trace_after, <- app_assoc.
  - intros Hin2.
    destruct (valid_run w args2 config2 output2 s1 Hin2) as (-> & _).
    subst s1. destruct (valid_run w args1 config1 output1 s Hin1) as (-> & _).
    apply insert_insert_eq.
  - intros Hout2.
    destruct (invalid_run w args2 config2 output2 s1 Hout2) as (_ & _ & ->).
    subst s1. by destruct (valid_run w args1 config1 output1 s Hin1) as (-> & _).
Qed.

(** X13. The computed [sourceMapUrl] is defined exactly when
    [args.sourcemapOutput] is; and an empty [args.sourcemapOutput], being
    falsy, stays the empty string, [path.basename] not being asked. *)
Theorem sourceMapUrl_defined args :
  (is_Some (RequestOptions.sourceMapUrl (requestOpts w args))
   <-> is_Some (CommandLineArgs.sourcemapOutput args)) /\
  (CommandLineArgs.sourcemapOutput args = Some EmptyString ->
   RequestOptions.sourceMapUrl (requestOpts w args) = Some EmptyString).
Proof.
  unfold requestOpts. simpl. split.
  - destruct (CommandLineArgs.sourcemapOutput args) as [p|]; [|done].
    destruct (truthy p && _); split; intros _; by eexists.
  - by intros ->.
Qed.

(** X14. The edges of the two diagnostics. When the rejected platform is
    the empty string the error names no platform; when the config supports
    no platform at all every run is rejected and the info lists nothing. *)
Theorem diagnostics_at_the_edges args config output s :
  (CommandLineArgs.platform args = EmptyString ->
   EmptyString ∉ ConfigT.platforms (ConfigT.resolver config) ->
   exists info,
     events_of w args config output s =
       [LoggerError "Invalid platform selected."; LoggerInfo info]) /\
  (ConfigT.platforms (ConfigT.resolver config) = [] ->
   completion_of w args config output s = Throw (JsError "Bundling failed") /\
   exists error,
     events_of w args config output s =
       [LoggerError error;
        LoggerInfo "Available platforms are: . If you are trying to bundle for an out-of-tree platform, it may not be installed."]).
Proof.
  split.
  - intros Hp Hout. rewrite <- Hp in Hout.
    destruct (invalid_run w args config output s Hout) as (_ & -> & _).
    rewrite Hp. by eexists.
  - intros Hnil.
    assert (CommandLineArgs.platform args
              ∉ ConfigT.platforms (ConfigT.resolver config)) as Hout
      by (rewrite Hnil; apply not_elem_of_nil).
    destruct (invalid_run w args config output s Hout) as (-> & -> & _).
    rewrite Hnil. split; [done|]. by eexists.
Qed.

End Further.

(** ** The caller *)

Section Caller.

Context {Server Bundle Assets Result Ctx : Type}.
Variable w : World Server Bundle Assets Result.
Variable loadMetroConfig :
  Ctx -> LoadOptions.t -> M Server Bundle Assets ConfigT.t.

Implicit Types (args : CommandLineArgs.t) (config : ConfigT.t) (ctx : Ctx).
Implicit Types (output : option (OutputWriter Server Bundle Assets)).
Implicit Types (s : State Server Bundle Assets).

(** When loading returns, [buildBundle] hands over. *)
Lemma buildBundle_loaded args ctx output s config s1 :
  loadMetroConfig ctx
    {| LoadOptions.maxWorkers := CommandLineArgs.maxWorkers args;
       LoadOptions.resetCache := CommandLineArgs.resetCache args;
       LoadOptions.config := CommandLineArgs.config args |} s
    = (Normal config, s1) ->
  buildBundle w loadMetroConfig args ctx output s
  = buildBundleWithConfig w args config output s1.
Proof.
  intros Hload. unfold buildBundle. cbv [mbind M_bind]. rewrite Hload.
  by destruct output.
Qed.

(** X2. When the config that was loaded does not support [args.platform],
    [buildBundle] fails with the error "Bundling failed"; after loading it
    has only logged the two diagnostics, and [process.env] is as loading
    left it. *)
Theorem buildBundle_rejects_unsupported_platform args ctx output s config s1 :
  loadMetroConfig ctx
    {| LoadOptions.maxWorkers := CommandLineArgs.maxWorkers args;
       LoadOptions.resetCache := CommandLineArgs.resetCache args;
       LoadOptions.config := CommandLineArgs.config args |} s
    = (Normal config, s1) ->
  CommandLineArgs.platform args ∉ ConfigT.platforms (ConfigT.resolver config) ->
  exists error info,
    buildBundle w loadMetroConfig args ctx output s =
    (Throw (JsError "Bundling failed"),
     {| env := env s1;
        trace := trace s1 ++ [LoggerError error; LoggerInfo info] |}).
Proof.
  intros Hload Hout.
  rewrite (buildBundle_loaded args ctx output s config s1 Hload).
  rewrite (run_invalid w _ _ _ _ Hout). by eexists _, _.
Qed.

End Caller.

(** ** The sample world at work

    Runs of the program in the sample world, evaluated; among them the
    examples of the spec's list of testable properties. *)

Section SampleRuns.

Import Sample.

(** [chalk.bold] on a plain name, on the empty string and across a line
    break. *)
Example bold_plain : bold "ios" = bold_open +:+ "ios" +:+ bold_close.
Proof. reflexivity. Qed.

Example bold_empty : bold EmptyString = EmptyString.
Proof. reflexivity. Qed.

Example bold_line_break :
  bold ("a" +:+ String line_feed "b")
  = bold_open +:+ "a" +:+ bold_close +:+ String line_feed EmptyString
    +:+ bold_open +:+ "b" +:+ bold_close.
Proof. reflexivity. Qed.

Example basename_of_map : basename "/abs/out/bundle.map" = "bundle.map".
Proof. reflexivity. Qed.

Example basename_of_empty : basename EmptyString = EmptyString.
Proof. reflexivity. Qed.

Example sourceMapUrl_basename :
  RequestOptions.sourceMapUrl (requestOpts (world []) (args "ios"))
  = Some "bundle.map".
Proof. reflexivity. Qed.

Example minify_from_dev :
  RequestOptions.minify (requestOpts (world []) (args "ios")) = false.
Proof. reflexivity. Qed.

Example run_ok :
  buildBundleWithConfig (world []) (args "ios") config None start =
  (Normal 9%nat,
   {| env := <["NODE_ENV" := "development"]> (env start);
      trace := opening ++ [built; made; saved; asked; stored; ServerEnd 1%nat] |}).
Proof. vm_compute. reflexivity. Qed.

Example run_build_throws :
  buildBundleWithConfig (world [AtBuild]) (args "ios") config None start =
  (Throw (Foreign 2),
   {| env := <["NODE_ENV" := "development"]> (env start);
      trace := opening ++ [built; ServerEnd 1%nat] |}).
Proof. vm_compute. reflexivity. Qed.

Example run_mkdir_throws :
  buildBundleWithConfig (world [AtMkdir]) (args "ios") config None start =
  (Throw (Foreign 3),
   {| env := <["NODE_ENV" := "development"]> (env start);
      trace := opening ++ [built; made; ServerEnd 1%nat] |}).
Proof. vm_compute. reflexivity. Qed.

Example run_save_throws :
  buildBundleWithConfig (world [AtSave]) (args "ios") config None start =
  (Throw (Foreign 4),
   {| env := <["NODE_ENV" := "development"]> (env start);
      trace := opening ++ [built; made; saved; ServerEnd 1%nat] |}).
Proof. vm_compute. reflexivity. Qed.

Example run_getAssets_throws :
  buildBundleWithConfig (world [AtGetAssets]) (args "ios") config None start =
  (Throw (Foreign 5),
   {| env := <["NODE_ENV" := "development"]> (env start);
      trace := opening ++ [built; made; saved; asked; ServerEnd 1%nat] |}).
Proof. vm_compute. reflexivity. Qed.

Example run_saveAssets_throws :
  buildBundleWithConfig (world [AtSaveAssets]) (args "ios") config None start =
  (Throw (Foreign 6),
   {| env := <["NODE_ENV" := "development"]> (env start);
      trace := opening ++ [built; made; saved; asked; stored; ServerEnd 1%nat] |}).
Proof. vm_compute. reflexivity. Qed.

(** When [server.end] throws too, its error is the one the caller sees. *)
Example run_save_and_end_throw :
  buildBundleWithConfig (world [AtSave; AtEnd]) (args "ios") config None start =
  (Throw (Foreign 7),
   {| env := <["NODE_ENV" := "development"]> (env start);
      trace := opening ++ [built; made; saved; ServerEnd 1%nat] |}).
Proof. vm_compute. reflexivity. Qed.

(** When the constructor of [Server] throws, there is no session to end. *)
Example run_constructor_throws :
  buildBundleWithConfig (world [AtNew]) (args "ios") config None start =
  (Throw (Foreign 1),
   {| env := <["NODE_ENV" := "development"]> (env start);
      trace := opening |}).
Proof. vm_compute. reflexivity. Qed.

Example run_windows :
  buildBundleWithConfig (world []) (args "windows") config None start =
  (Throw (JsError "Bundling failed"),
   {| env := env start;
      trace :=
        [LoggerError ("Invalid platform " +:+ dquote +:+ bold "windows"
                      +:+ dquote +:+ " selected.");
         LoggerInfo ("Available platforms are: "
                     +:+ dquote +:+ bold "ios" +:+ dquote +:+ ", "
                     +:+ dquote +:+ bold "android" +:+ dquote
                     +:+ ". If you are trying to bundle for an out-of-tree platform, it may not be installed.")] |}).
Proof. vm_compute. reflexivity. Qed.

(** The guard of line 58: an empty platform is left out of the message. *)
Example run_empty_platform :
  events_of (world []) (args EmptyString) config None start =
  [LoggerError "Invalid platform selected.";
   LoggerInfo (available_platforms_message (world []) ["ios"; "android"])].
Proof. vm_compute. reflexivity. Qed.

End SampleRuns.

(** ** The claims at concrete inputs

    Each statement below instantiates a theorem of the specification in the
    sample world and discharges its hypotheses by evaluation. *)

Lemma session_released_exactly_once_witness :
  let w := Sample.world [Sample.AtSave] in
  let opening : list (Event nat nat nat) :=
    [SetEnv "NODE_ENV" "development"; NewServer Sample.config] in
  "ios" ∈ ConfigT.platforms (ConfigT.resolver Sample.config) /\
  Server_new w (trace Sample.start ++ [SetEnv "NODE_ENV" "development"])
    Sample.config = Normal 1%nat /\
  exists r evs,
    BodyOutcome w (Sample.args "ios") (default (outputBundle w) None) 1%nat
      (trace Sample.start ++ opening) r evs /\
    events_of w (Sample.args "ios") Sample.config None Sample.start
      = opening ++ evs ++ [ServerEnd 1%nat] /\
    (forall x, ServerEnd x ∉ opening ++ evs) /\
    completion_of w (Sample.args "ios") Sample.config None Sample.start =
      match Server_end w (trace Sample.start ++ opening ++ evs) 1%nat with
      | Normal _ => r
      | Throw e => Throw e
      end.
Proof.
  intros w opening.
  assert ("ios" ∈ ConfigT.platforms (ConfigT.resolver Sample.config)) as Hin
    by repeat constructor.
  split; [exact Hin|]. split; [reflexivity|].
  exact (session_released_exactly_once w (Sample.args "ios") Sample.config None
           Sample.start 1%nat Hin eq_refl).
Defined.

Lemma invalid_platform_fails_without_session_witness :
  let w := Sample.world [] in
  let events :=
    events_of w (Sample.args "windows") Sample.config None Sample.start in
  ("windows" ∉ ConfigT.platforms (ConfigT.resolver Sample.config)) /\
  completion_of w (Sample.args "windows") Sample.config None Sample.start
    = Throw (JsError "Bundling failed") /\
  (forall c, NewServer c ∉ events) /\
  (forall d o, MkdirSync d o ∉ events) /\
  (forall b a, OutputSave b a ∉ events) /\
  (forall sv o, GetAssets sv o ∉ events) /\
  (forall a p d c, SaveAssets a p d c ∉ events).
Proof.
  intros w events.
  assert ("windows" ∉ ConfigT.platforms (ConfigT.resolver Sample.config))
    as Hout by (simpl; absent).
  split; [exact Hout|].
  destruct (invalid_platform_fails_without_session w (Sample.args "windows")
              Sample.config None Sample.start Hout)
    as (Hc & Hnew & _ & Hmk & Hsave & Hget & Hsa & _).
  repeat split; assumption.
Defined.

Lemma minify_option_witness :
  let w := Sample.world [] in
  let opts := requestOpts w (Sample.args "ios") in
  OutputBuild 1%nat opts
    ∈ events_of w (Sample.args "ios") Sample.config None Sample.start /\
  RequestOptions.minify opts = false.
Proof.
  intros w opts.
  assert (OutputBuild 1%nat opts
            ∈ events_of w (Sample.args "ios") Sample.config None Sample.start)
    as Hev by (vm_compute; repeat constructor).
  split; [exact Hev|].
  exact (proj2 (minify_option w (Sample.args "ios"))
           Sample.config None Sample.start 1%nat opts Hev).
Defined.

Lemma sourceMapUrl_option_witness :
  let w := Sample.world [] in
  path_basename w EmptyString = EmptyString /\
  RequestOptions.sourceMapUrl (requestOpts w (Sample.args "ios"))
    = Some "bundle.map".
Proof.
  intros w. split; [reflexivity|].
  exact (proj1 (sourceMapUrl_option w (Sample.args "ios") eq_refl)).
Defined.


Lemma node_env_set_before_session_witness :
  let w := Sample.world [Sample.AtBuild] in
  "ios" ∈ ConfigT.platforms (ConfigT.resolver Sample.config) /\
  env (state_after w (Sample.args "ios") Sample.config None Sample.start)
    !! "NODE_ENV" = Some "development".
Proof.
  intros w.
  assert ("ios" ∈ ConfigT.platforms (ConfigT.resolver Sample.config)) as Hin
    by repeat constructor.
  split; [exact Hin|].
  exact (proj1 (node_env_set_before_session w (Sample.args "ios")
                  Sample.config None Sample.start Hin)).
Defined.


Lemma invalid_platform_diagnostics_witness :
  let w := Sample.world [] in
  let events :=
    events_of w (Sample.args "windows") Sample.config None Sample.start in
  ("windows" ∉ ConfigT.platforms (ConfigT.resolver Sample.config)) /\
  Substring "windows" (chalk_bold w "windows") /\
  Substring "android" (chalk_bold w "android") /\
  exists error info,
    events = [LoggerError error; LoggerInfo info] /\
    Substring "windows" error /\
    Substring "android" info /\
    Substring (dquote +:+ chalk_bold w "ios" +:+ dquote) info.
Proof.
  intros w events.
  assert ("windows" ∉ ConfigT.platforms (ConfigT.resolver Sample.config))
    as Hout by (simpl; absent).
  assert (Substring "windows" (chalk_bold w "windows")) as Hwindows
    by (exists Sample.bold_open, Sample.bold_close; reflexivity).
  assert (Substring "android" (chalk_bold w "android")) as Handroid
    by (exists Sample.bold_open, Sample.bold_close; reflexivity).
  split; [exact Hout|]. split; [exact Hwindows|]. split; [exact Handroid|].
  destruct (invalid_platform_diagnostics w (Sample.args "windows")
              Sample.config None Sample.start Hout)
    as (Hev & _ & _ & Hshown & Herror & Hinfo).
  eexists _, _. split; [exact Hev|].
  split; [exact (Herror Hwindows)|].
  split; [apply (Hinfo "android"); [repeat constructor|exact Handroid]|].
  apply (Hshown "ios"). repeat constructor.
Defined.

Lemma returns_result_of_saveAssets_witness :
  let w := Sample.world [] in
  completion_of w (Sample.args "ios") Sample.config None Sample.start
    = Normal 9%nat /\
  exists server assets pre,
    events_of w (Sample.args "ios") Sample.config None Sample.start =
      pre ++ [SaveAssets assets "ios" (Some "/abs/out/assets") None;
              ServerEnd server] /\
    saveAssets w (trace Sample.start ++ pre) assets "ios"
      (Some "/abs/out/assets") None = Normal 9%nat.
Proof.
  intros w.
  assert (completion_of w (Sample.args "ios") Sample.config None Sample.start
            = Normal 9%nat) as Hret by (vm_compute; reflexivity).
  split; [exact Hret|].
  exact (returns_result_of_saveAssets w (Sample.args "ios") Sample.config None
           Sample.start 9%nat Hret).
Defined.

Lemma invalid_platform_keeps_environment_witness :
  let w := Sample.world [] in
  ("windows" ∉ ConfigT.platforms (ConfigT.resolver Sample.config)) /\
  env (state_after w (Sample.args "windows") Sample.config None Sample.start)
    = env Sample.start /\
  env (state_after w (Sample.args "windows") Sample.config None Sample.start)
    !! "NODE_ENV" = None.
Proof.
  intros w.
  assert ("windows" ∉ ConfigT.platforms (ConfigT.resolver Sample.config))
    as Hout by (simpl; absent).
  split; [exact Hout|].
  destruct (invalid_platform_keeps_environment w (Sample.args "windows")
              Sample.config None Sample.start Hout) as (Henv & Hnode & _).
  split; [exact Henv|]. rewrite Hnode. reflexivity.
Defined.

(** ** The further properties at concrete inputs *)

Lemma buildBundle_rejects_unsupported_platform_witness :
  let w := Sample.world [] in
  let loaded : State nat nat nat :=
    {| env := env Sample.start;
       trace := [LoggerInfo "Loading Metro config"] |} in
  Sample.loader false tt
    {| LoadOptions.maxWorkers := None;
       LoadOptions.resetCache := false;
       LoadOptions.config := None |} Sample.start
    = (Normal Sample.config, loaded) /\
  ("windows" ∉ ConfigT.platforms (ConfigT.resolver Sample.config)) /\
  exists error info,
    buildBundle w (Sample.loader false) (Sample.args "windows") tt None
      Sample.start =
    (Throw (JsError "Bundling failed"),
     {| env := env loaded;
        trace := trace loaded ++ [LoggerError error; LoggerInfo info] |}).
Proof.
  intros w loaded.
  assert ("windows" ∉ ConfigT.platforms (ConfigT.resolver Sample.config))
    as Hout by (simpl; absent).
  split; [reflexivity|]. split; [exact Hout|].
  exact (buildBundle_rejects_unsupported_platform w (Sample.loader false)
           (Sample.args "windows") tt None Sample.start Sample.config loaded
           eq_refl Hout).
Defined.

Lemma constructor_failure_witness :
  let w := Sample.world [Sample.AtNew] in
  "ios" ∈ ConfigT.platforms (ConfigT.resolver Sample.config) /\
  Server_new w (trace Sample.start ++ [SetEnv "NODE_ENV" "development"])
    Sample.config = Throw (Foreign 1) /\
  completion_of w (Sample.args "ios") Sample.config None Sample.start
    = Throw (Foreign 1) /\
  events_of w (Sample.args "ios") Sample.config None Sample.start
    = Sample.opening /\
  env (state_after w (Sample.args "ios") Sample.config None Sample.start)
    !! "NODE_ENV" = Some "development".
Proof.
  intros w.
  assert ("ios" ∈ ConfigT.platforms (ConfigT.resolver Sample.config)) as Hin
    by repeat constructor.
  split; [exact Hin|]. split; [reflexivity|].
  exact (constructor_failure w (Sample.args "ios") Sample.config None
           Sample.start (Foreign 1) Hin eq_refl).
Defined.

Lemma end_error_masks_outcome_witness :
  let w := Sample.world [Sample.AtEnd] in
  let body := [Sample.built; Sample.made; Sample.saved; Sample.asked;
               Sample.stored] in
  "ios" ∈ ConfigT.platforms (ConfigT.resolver Sample.config) /\
  Server_new w (trace Sample.start ++ [SetEnv "NODE_ENV" "development"])
    Sample.config = Normal 1%nat /\
  BodyOutcome w (Sample.args "ios") (default (outputBundle w) None) 1%nat
    (trace Sample.start ++ Sample.opening) (Normal 9%nat) body /\
  Server_end w (trace Sample.start ++ Sample.opening ++ body) 1%nat
    = Throw (Foreign 7) /\
  completion_of w (Sample.args "ios") Sample.config None Sample.start
    = Throw (Foreign 7) /\
  events_of w (Sample.args "ios") Sample.config None Sample.start
    = Sample.opening ++ body ++ [ServerEnd 1%nat].
Proof.
  intros w body.
  assert ("ios" ∈ ConfigT.platforms (ConfigT.resolver Sample.config)) as Hin
    by repeat constructor.
  assert (BodyOutcome w (Sample.args "ios") (default (outputBundle w) None)
            1%nat (trace Sample.start ++ Sample.opening) (Normal 9%nat) body)
    as Hbody.
  { exact (saveAssets_completes _ _ _ _ w (Sample.args "ios")
             (default (outputBundle w) None) 1%nat
             (trace Sample.start ++ Sample.opening) 7%nat 3%nat (Normal 9%nat)
             eq_refl eq_refl eq_refl eq_refl eq_refl). }
  split; [exact Hin|]. split; [reflexivity|]. split; [exact Hbody|].
  split; [reflexivity|].
  exact (end_error_masks_outcome w (Sample.args "ios") Sample.config None
           Sample.start 1%nat (Normal 9%nat) body (Foreign 7) Hin eq_refl
           Hbody eq_refl).
Defined.

Lemma successful_run_witness :
  let w := Sample.world [] in
  "ios" ∈ ConfigT.platforms (ConfigT.resolver Sample.config) /\
  completion_of w (Sample.args "ios") Sample.config None Sample.start
    = Normal 9%nat /\
  events_of w (Sample.args "ios") Sample.config None Sample.start
    = Sample.opening ++ [Sample.built; Sample.made; Sample.saved; Sample.asked;
                         Sample.stored; ServerEnd 1%nat].
Proof.
  intros w.
  assert ("ios" ∈ ConfigT.platforms (ConfigT.resolver Sample.config)) as Hin
    by repeat constructor.
  split; [exact Hin|].
  exact (successful_run w (Sample.args "ios") Sample.config None Sample.start
           1%nat 7%nat 3%nat 9%nat Hin eq_refl eq_refl eq_refl eq_refl eq_refl
           eq_refl eq_refl).
Defined.

Lemma failed_build_touches_nothing_witness :
  let w := Sample.world [Sample.AtBuild] in
  "ios" ∈ ConfigT.platforms (ConfigT.resolver Sample.config) /\
  events_of w (Sample.args "ios") Sample.config None Sample.start
    = Sample.opening ++ [Sample.built; ServerEnd 1%nat] /\
  completion_of w (Sample.args "ios") Sample.config None Sample.start
    = Throw (Foreign 2).
Proof.
  intros w.
  assert ("ios" ∈ ConfigT.platforms (ConfigT.resolver Sample.config)) as Hin
    by repeat constructor.
  split; [exact Hin|].
  destruct (failed_build_touches_nothing w (Sample.args "ios") Sample.config
              None Sample.start 1%nat (Foreign 2) Hin eq_refl eq_refl)
    as (Hev & _ & _ & _ & _ & Hc).
  split; [exact Hev|exact Hc].
Defined.

Lemma failed_mkdir_prevents_save_witness :
  let w := Sample.world [Sample.AtMkdir] in
  "ios" ∈ ConfigT.platforms (ConfigT.resolver Sample.config) /\
  events_of w (Sample.args "ios") Sample.config None Sample.start
    = Sample.opening ++ [Sample.built; Sample.made; ServerEnd 1%nat] /\
  (forall b a,
     OutputSave b a
       ∉ events_of w (Sample.args "ios") Sample.config None Sample.start) /\
  completion_of w (Sample.args "ios") Sample.config None Sample.start
    = Throw (Foreign 3).
Proof.
  intros w.
  assert ("ios" ∈ ConfigT.platforms (ConfigT.resolver Sample.config)) as Hin
    by repeat constructor.
  split; [exact Hin|].
  destruct (failed_mkdir_prevents_save w (Sample.args "ios") Sample.config
              None Sample.start 1%nat 7%nat (Foreign 3) Hin eq_refl eq_refl
              eq_refl)
    as (Hev & Hsave & _ & _ & Hc).
  split; [exact Hev|]. split; [exact Hsave|exact Hc].
Defined.

Lemma calls_in_source_order_witness :
  let w := Sample.world [Sample.AtSave] in
  let events := events_of w (Sample.args "ios") Sample.config None Sample.start in
  "ios" ∈ ConfigT.platforms (ConfigT.resolver Sample.config) /\
  Server_new w (trace Sample.start ++ [SetEnv "NODE_ENV" "development"])
    Sample.config = Normal 1%nat /\
  map call_of events
  = [CallSetEnv; CallNewServer; CallOutputBuild; CallMkdirSync;
     CallOutputSave; CallServerEnd] /\
  exists n, n = 3%nat /\
    map call_of events
    = [CallSetEnv; CallNewServer] ++ take n tryBlockCalls ++ [CallServerEnd] /\
    last events = Some (ServerEnd 1%nat).
Proof.
  intros w events.
  assert ("ios" ∈ ConfigT.platforms (ConfigT.resolver Sample.config)) as Hin
    by repeat constructor.
  assert (map call_of events
          = [CallSetEnv; CallNewServer; CallOutputBuild; CallMkdirSync;
             CallOutputSave; CallServerEnd]) as Hcalls
    by (vm_compute; reflexivity).
  split; [exact Hin|]. split; [reflexivity|]. split; [exact Hcalls|].
  destruct (proj2 (calls_in_source_order w (Sample.args "ios") Sample.config
                     None Sample.start Hin) 1%nat eq_refl)
    as (n & Hn & Hshape & Hlast & _).
  exists n. split; [|split; [exact Hshape|exact Hlast]].
  fold events in Hshape. rewrite Hcalls in Hshape.
  destruct n as [|[|[|[|[|[|n]]]]]]; try discriminate Hshape; reflexivity.
Defined.

Lemma saved_bundle_is_built_bundle_witness :
  let w := Sample.world [] in
  let events := events_of w (Sample.args "ios") Sample.config None Sample.start in
  OutputSave 7%nat (Sample.args "ios") ∈ events /\
  exists pre server post,
    events = pre ++ OutputBuild server (requestOpts w (Sample.args "ios")) :: post /\
    OutputSave 7%nat (Sample.args "ios") ∈ post /\
    build (default (outputBundle w) None) (trace Sample.start ++ pre) server
      (requestOpts w (Sample.args "ios")) = Normal 7%nat.
Proof.
  intros w events.
  assert (OutputSave 7%nat (Sample.args "ios") ∈ events) as Hev
    by (vm_compute; repeat constructor).
  split; [exact Hev|].
  exact (proj2 (saved_bundle_is_built_bundle w (Sample.args "ios")
                  Sample.config None Sample.start 7%nat (Sample.args "ios")
                  Hev)).
Defined.

Lemma saved_assets_are_requested_assets_witness :
  let w := Sample.world [] in
  let events := events_of w (Sample.args "ios") Sample.config None Sample.start in
  Sample.stored ∈ events /\
  exists pre server o post,
    events = pre ++ GetAssets server o :: post /\
    Sample.stored ∈ post /\
    Server_getAssets w (trace Sample.start ++ pre) server o = Normal 3%nat.
Proof.
  intros w events.
  assert (Sample.stored ∈ events) as Hev
    by (vm_compute; repeat constructor).
  split; [exact Hev|].
  destruct (saved_assets_are_requested_assets w (Sample.args "ios")
              Sample.config None Sample.start 3%nat "ios"
              (Some "/abs/out/assets") None Hev)
    as (_ & _ & _ & Hflow).
  exact Hflow.
Defined.

Lemma other_variables_untouched_witness :
  let w := Sample.world [] in
  "HOME" <> "NODE_ENV" /\
  env (state_after w (Sample.args "ios") Sample.config None Sample.start)
    !! "HOME" = Some "/root".
Proof.
  intros w.
  assert ("HOME" <> "NODE_ENV") as Hkey by discriminate.
  split; [exact Hkey|].
  rewrite (other_variables_untouched w (Sample.args "ios") Sample.config None
             Sample.start "HOME" Hkey).
  reflexivity.
Defined.

Lemma consecutive_runs_witness :
  let w := Sample.world [] in
  let s1 := state_after w (Sample.args "ios") Sample.config None Sample.start in
  let s2 := state_after w Sample.args_android Sample.config None s1 in
  "ios" ∈ ConfigT.platforms (ConfigT.resolver Sample.config) /\
  "android" ∈ ConfigT.platforms (ConfigT.resolver Sample.config) /\
  env s1 !! "NODE_ENV" = Some "development" /\
  env s2 = <["NODE_ENV" := "production"]> (env Sample.start).
Proof.
  intros w s1 s2.
  assert ("ios" ∈ ConfigT.platforms (ConfigT.resolver Sample.config)) as Hin1
    by repeat constructor.
  assert ("android" ∈ ConfigT.platforms (ConfigT.resolver Sample.config))
    as Hin2 by repeat constructor.
  split; [exact Hin1|]. split; [exact Hin2|].
  split; [vm_compute; reflexivity|].
  exact (proj1 (proj2 (consecutive_runs w (Sample.args "ios") Sample.config
                         None Sample.args_android Sample.config None
                         Sample.start Hin1))
           Hin2).
Defined.

Lemma sourceMapUrl_defined_witness :
  let w := Sample.world [] in
  CommandLineArgs.sourcemapOutput Sample.args_android = Some EmptyString /\
  RequestOptions.sourceMapUrl (requestOpts w Sample.args_android)
    = Some EmptyString.
Proof.
  intros w. split; [reflexivity|].
  exact (proj2 (sourceMapUrl_defined w Sample.args_android) eq_refl).
Defined.

Lemma diagnostics_at_the_edges_witness :
  let w := Sample.world [] in
  ConfigT.platforms (ConfigT.resolver Sample.config_without_platforms) = [] /\
  completion_of w (Sample.args "ios") Sample.config_without_platforms None
    Sample.start = Throw (JsError "Bundling failed") /\
  exists error,
    events_of w (Sample.args "ios") Sample.config_without_platforms None
      Sample.start =
    [LoggerError error;
     LoggerInfo "Available platforms are: . If you are trying to bundle for an out-of-tree platform, it may not be installed."].
Proof.
  intros w. split; [reflexivity|].
  exact (proj2 (diagnostics_at_the_edges w (Sample.args "ios")
                  Sample.config_without_platforms None Sample.start)
           eq_refl).
Defined.
